(** * The ONSPD processor of uk-postcodes-parsing, embedded in Rocq

    Source: [onspd_tools/onspd_processor.py] (class [ONSPDProcessor]).

    The development follows the Python file top-down: the Python values the
    processor handles, the field-mapping table, the per-row extractor
    ([_process_chunk]), the lookup enricher ([_add_human_readable_names]),
    the chunked reader ([process_onspd_csv]) and the directory run
    ([process_onspd_csv_directory]).

    Conventions of the embedding.
    - Text is a [string] whose characters are code points below 256.
    - A Python exception is a value of [exn]; a function that may raise
      returns a [Result].  [try]/[except] is written out where the source
      has it, and only there.
    - Log records at level INFO and above are kept (the module configures
      [logging] at INFO); [logger.debug] calls are not modelled.
    - A row of a file is the list of its cells.  The rows of a
      [pandas.DataFrame] built from a list of dicts are followed as that
      list ([DataFrame]), which is what [len], [isna] and [dropna] look at;
      the types pandas gives the columns of such a frame, which depend on
      the rows that share a chunk, are followed apart ([Frame]).
    - Wall-clock time ([processing_time] and the throughput line) is left
      out. *)

From Stdlib Require Import ZArith NArith Ascii String List Lia.
From stdpp Require Import base option list gmap strings fin_maps.

Open Scope string_scope.
Open Scope Z_scope.
Open Scope list_scope.

(** ** Exceptions and results *)

Inductive exn : Type :=
  | ValueError
  | TypeError
  | OverflowError
  | AttributeError
  | IndexError
  | KeyError
  | FileNotFoundError
  | ParserError
  | EmptyDataError
  | OSError.

Inductive Result (A : Type) : Type :=
  | Ok (a : A)
  | Raise (e : exn).
Arguments Ok {A} a.
Arguments Raise {A} e.

#[export] Instance Result_ret : MRet Result := fun _ a => Ok a.
#[export] Instance Result_bind : MBind Result := fun _ _ k m =>
  match m with
  | Ok a => k a
  | Raise e => Raise e
  end.

(** ** Python [str] methods used by the processor *)

(** [c.isspace()] for a character below 256. *)
Definition isspace (c : ascii) : bool :=
  let n := N_of_ascii c in
  ((9 <=? n) && (n <=? 13) || (28 <=? n) && (n <=? 32)
   || (n =? 133) || (n =? 160))%N.

(** [c.lower()] for a character below 256. *)
Definition lower_char (c : ascii) : ascii :=
  let n := N_of_ascii c in
  if ((65 <=? n) && (n <=? 90)
      || (192 <=? n) && (n <=? 222) && negb (n =? 215))%N
  then ascii_of_N (n + 32) else c.

Fixpoint lower (s : string) : string :=
  match s with
  | EmptyString => EmptyString
  | String c s' => String (lower_char c) (lower s')
  end.

Fixpoint lstrip (s : string) : string :=
  match s with
  | EmptyString => EmptyString
  | String c s' => if isspace c then lstrip s' else s
  end.

Definition rstrip (s : string) : string :=
  String.rev (lstrip (String.rev s)).

(** [s.strip()] *)
Definition strip (s : string) : string := rstrip (lstrip s).

Definition is_space_char (c : ascii) : bool := Ascii.eqb c " "%char.

(** [" " in s] *)
Fixpoint contains_space (s : string) : bool :=
  match s with
  | EmptyString => false
  | String c s' => is_space_char c || contains_space s'
  end.

(** [s.replace(" ", "")] *)
Fixpoint remove_spaces (s : string) : string :=
  match s with
  | EmptyString => EmptyString
  | String c s' =>
      if is_space_char c then remove_spaces s' else String c (remove_spaces s')
  end.

(** [s.split(" ")]: one piece more than there are spaces. *)
Fixpoint split_space (s : string) : list string :=
  match s with
  | EmptyString => [EmptyString]
  | String c s' =>
      if is_space_char c then EmptyString :: split_space s'
      else match split_space s' with
           | [] => [String c EmptyString]
           | w :: ws => String c w :: ws
           end
  end.

(** [l[i]] on a Python list *)
Definition py_index {A : Type} (l : list A) (i : nat) : Result A :=
  match l !! i with
  | Some x => Ok x
  | None => Raise IndexError
  end.

(** Truth value of a [str]. *)
Definition str_truthy (s : string) : bool :=
  match s with
  | EmptyString => false
  | String _ _ => true
  end.

(** ** Python floats

    The processor uses the built-in [float] only through the operations
    below; they are kept abstract so that every statement holds for the
    IEEE doubles of the interpreter. *)

Class PyFloat (F : Type) : Type := {
  (** [float(s)]; [None] stands for the [ValueError] of a malformed text. *)
  float_of_str : string -> option F;
  (** [int(f)]: [ValueError] on a NaN, [OverflowError] on an infinity. *)
  int_of_float : F -> Result Z;
  (** [math.isnan(f)], which is what [isna] tests on a float. *)
  float_isnan : F -> bool;
  (** truth value of a float: [f != 0.0]. *)
  float_truthy : F -> bool;
  (** [f == g] *)
  float_eqb : F -> F -> bool;
  (** [f == n] for an integer [n] *)
  float_eq_int : F -> Z -> bool
}.

(** A small instance on which the examples run: decimal literals without
    exponent and without digit separators, kept exactly (no rounding to a
    double), with the two infinities and NaN.  The statements do not depend
    on it. *)
Inductive DecFloat : Type :=
  | DNan
  | DInf (negative : bool)
  | DFin (mantissa : Z) (scale : nat).   (* mantissa / 10^scale *)

Definition digit_of (c : ascii) : option Z :=
  let n := N_of_ascii c in
  if ((48 <=? n) && (n <=? 57))%N then Some (Z.of_N (n - 48)) else None.

(** Reads [digits] or [digits.digits]; [seen] tells whether a digit was read,
    [frac] whether the point was passed. *)
Fixpoint dec_digits (s : string) (m : Z) (k : nat) (frac seen : bool)
  : option DecFloat :=
  match s with
  | EmptyString => if seen then Some (DFin m k) else None
  | String c s' =>
      match digit_of c with
      | Some d => dec_digits s' (10 * m + d) (if frac then S k else k) frac true
      | None =>
          if Ascii.eqb c "."%char && negb frac
          then dec_digits s' m k true seen
          else None
      end
  end.

Definition dec_unsigned (s : string) : option DecFloat :=
  let l := lower s in
  if String.eqb l "nan" then Some DNan
  else if String.eqb l "inf" || String.eqb l "infinity" then Some (DInf false)
  else dec_digits s 0 0%nat false false.

Definition dec_negate (f : DecFloat) : DecFloat :=
  match f with
  | DNan => DNan
  | DInf b => DInf (negb b)
  | DFin m k => DFin (- m) k
  end.

Definition dec_of_str (s : string) : option DecFloat :=
  match strip s with
  | String "-" s' => dec_negate <$> dec_unsigned s'
  | String "+" s' => dec_unsigned s'
  | s' => dec_unsigned s'
  end.

Definition dec_to_int (f : DecFloat) : Result Z :=
  match f with
  | DNan => Raise ValueError
  | DInf _ => Raise OverflowError
  | DFin m k => Ok (Z.quot m (10 ^ Z.of_nat k))
  end.

Definition dec_eq_int (f : DecFloat) (n : Z) : bool :=
  match f with
  | DFin m k => m =? n * 10 ^ Z.of_nat k
  | _ => false
  end.

Definition dec_eqb (f g : DecFloat) : bool :=
  match f, g with
  | DFin m k, DFin m' k' => m * 10 ^ Z.of_nat k' =? m' * 10 ^ Z.of_nat k
  | DInf a, DInf b => Bool.eqb a b
  | _, _ => false
  end.

#[export] Instance DecFloat_PyFloat : PyFloat DecFloat := {|
  float_of_str := dec_of_str;
  int_of_float := dec_to_int;
  float_isnan f := match f with DNan => true | _ => false end;
  float_truthy f := match f with DFin m _ => negb (m =? 0) | _ => true end;
  float_eqb := dec_eqb;
  float_eq_int := dec_eq_int
|}.

(** ** Python values

    One type for what the processor stores in a record and what
    [json.load] returns for a lookup table.  A [PDict] lists the items of a
    dict, each key once. *)

#[warnings="-register-all"] Inductive PyVal (F : Type) : Type :=
  | PNone
  | PBool (b : bool)
  | PInt (z : Z)
  | PFloat (f : F)
  | PStr (s : string)
  | PList (items : list (PyVal F))
  | PDict (items : list (string * PyVal F)).
Arguments PNone {F}.
Arguments PBool {F} b.
Arguments PInt {F} z.
Arguments PFloat {F} f.
Arguments PStr {F} s.
Arguments PList {F} items.
Arguments PDict {F} items.

(** A cell of a frame read with [dtype=str, na_values=['']]: a text, or the
    missing value. *)
Inductive Cell : Type :=
  | CNaN
  | CStr (s : string).

Definition Row : Type := list Cell.

(** [str(cell)] *)
Definition py_str (c : Cell) : string :=
  match c with
  | CNaN => "nan"
  | CStr s => s
  end.

Inductive FieldType : Type := TInt | TFloat.

(** An entry of [ONSPD_FIELD_MAPPINGS]. *)
Record FieldDef : Type := mkFieldDef {
  column : string;
  onspd_code : string;
  type : option FieldType;
  transform : option (string -> Result string);
  depends_on : option string
}.

Definition plain (col code : string) : FieldDef :=
  mkFieldDef col code None None None.
Definition typed (col code : string) (t : FieldType) : FieldDef :=
  mkFieldDef col code (Some t) None None.
Definition transformed (col code : string) (f : string -> Result string)
  : FieldDef :=
  mkFieldDef col code None (Some f) None.

(** [lambda x: x.replace(" ", "") if x else ""] *)
Definition transform_compact (x : string) : Result string :=
  if str_truthy x then Ok (remove_spaces x) else Ok "".

(** [lambda x: x.split(" ")[1] if x and " " in x else ""] *)
Definition transform_incode (x : string) : Result string :=
  if str_truthy x && contains_space x then py_index (split_space x) 1
  else Ok "".

(** [lambda x: x.split(" ")[0] if x and " " in x else ""] *)
Definition transform_outcode (x : string) : Result string :=
  if str_truthy x && contains_space x then py_index (split_space x) 0
  else Ok "".

Definition ONSPD_FIELD_MAPPINGS : list FieldDef := [
  plain "postcode" "pcds";
  transformed "pc_compact" "pcds" transform_compact;
  typed "eastings" "oseast1m" TInt;
  typed "northings" "osnrth1m" TInt;
  mkFieldDef "latitude" "lat" (Some TFloat) None (Some "osnrth1m");
  mkFieldDef "longitude" "long" (Some TFloat) None (Some "oseast1m");
  plain "country_code" "ctry";
  plain "nhs_ha_code" "oshlthau";
  plain "admin_county_id" "oscty";
  plain "admin_district_id" "oslaua";
  plain "admin_ward_id" "osward";
  plain "parish_id" "parish";
  typed "quality" "osgrdind" TInt;
  plain "constituency_id" "pcon";
  plain "european_electoral_region_code" "eer";
  plain "region_code" "rgn";
  plain "primary_care_trust_code" "pct";
  plain "lsoa_id" "lsoa11";
  plain "msoa_id" "msoa11";
  plain "nuts_id" "itl";
  transformed "incode" "pcds" transform_incode;
  transformed "outcode" "pcds" transform_outcode;
  plain "ced_id" "ced";
  plain "ccg_id" "sicbl";
  plain "date_of_introduction" "dointr";
  plain "date_of_termination" "doterm";
  plain "pfa_id" "pfa"
].

(** The [(code_field, table_name, name_field)] triples of
    [_add_human_readable_names]. *)
Record NameMapping : Type := mkNameMapping {
  code_field : string;
  table_name : string;
  name_field : string
}.

Definition NAME_MAPPINGS : list NameMapping := [
  mkNameMapping "country_code" "countries" "country";
  mkNameMapping "admin_district_id" "districts" "admin_district";
  mkNameMapping "admin_county_id" "counties" "admin_county";
  mkNameMapping "admin_ward_id" "wards" "admin_ward";
  mkNameMapping "parish_id" "parishes" "parish";
  mkNameMapping "constituency_id" "constituencies" "parliamentary_constituency";
  mkNameMapping "region_code" "regions" "region";
  mkNameMapping "european_electoral_region_code" "european_registers"
                "european_electoral_region";
  mkNameMapping "primary_care_trust_code" "pcts" "primary_care_trust";
  mkNameMapping "ccg_id" "ccgs" "ccg";
  mkNameMapping "lsoa_id" "lsoa" "lsoa";
  mkNameMapping "msoa_id" "msoa" "msoa";
  mkNameMapping "nuts_id" "nuts" "nuts";
  mkNameMapping "pfa_id" "police_force_areas" "pfa";
  mkNameMapping "ced_id" "ceds" "ced";
  mkNameMapping "nhs_ha_code" "nhsHa" "nhs_ha"
].

Definition label_fields : list string := name_field <$> NAME_MAPPINGS.
Definition code_fields : list string := code_field <$> NAME_MAPPINGS.
Definition target_columns : list string := column <$> ONSPD_FIELD_MAPPINGS.

(** The per-file header map: column name to position. *)
Abbreviation HeaderMap := (gmap string Z).

(** [_get_csv_column_mapping], from the column names pandas read:
    [{col: i for i, col in enumerate(column_names)}] over the lowered names;
    a later duplicate overwrites an earlier one. *)
Fixpoint enumerate_from {A : Type} (i : Z) (l : list A) : list (Z * A) :=
  match l with
  | [] => []
  | x :: l' => (i, x) :: enumerate_from (i + 1) l'
  end.

Definition column_mapping_of (columns : list string) : HeaderMap :=
  fold_left (fun m '(i, col) => <[col := i]> m)
            (enumerate_from 0 (lower <$> columns)) ∅.

(** [mapping.get(code, -1)] *)
Definition get_idx (m : HeaderMap) (code : string) : Z :=
  default (-1) (m !! code).

(** The guard [idx >= 0 and idx < len(row)] together with the read
    [row.iloc[idx]] it protects: the cell when the guard holds. *)
Definition cell_at (row : Row) (idx : Z) : option Cell :=
  if (0 <=? idx) && (idx <? Z.of_nat (length row))
  then row !! Z.to_nat idx else None.

Section Processor.
Context {F : Type} `{PyFloat F}.

(** A record under construction ([processed_row]) and a finished one: a
    dict from column name to value. *)
Abbreviation FlatRecord := (gmap string (PyVal F)).
Abbreviation DataFrame := (list (gmap string (PyVal F))).

(** [d.get(k)] on a dict given by its items. *)
Fixpoint dict_get (d : list (string * PyVal F)) (k : string)
  : option (PyVal F) :=
  match d with
  | [] => None
  | (k', v) :: d' => if String.eqb k' k then Some v else dict_get d' k
  end.

(** Truth value of a Python value. *)
Definition truthy (v : PyVal F) : bool :=
  match v with
  | PNone => false
  | PBool b => b
  | PInt z => negb (z =? 0)
  | PFloat f => float_truthy f
  | PStr s => str_truthy s
  | PList l => match l with [] => false | _ => true end
  | PDict d => match d with [] => false | _ => true end
  end.

(** The numbers among the values: [bool] counts as [int]. *)
Definition num_view (v : PyVal F) : option (Z + F) :=
  match v with
  | PBool b => Some (inl (Z.b2z b))
  | PInt z => Some (inl z)
  | PFloat f => Some (inr f)
  | _ => None
  end.

Definition num_eq (a b : Z + F) : bool :=
  match a, b with
  | inl x, inl y => x =? y
  | inl x, inr g => float_eq_int g x
  | inr f, inl y => float_eq_int f y
  | inr f, inr g => float_eqb f g
  end.

(** [a == b] on values. *)
Fixpoint py_eq (a b : PyVal F) {struct a} : bool :=
  match a with
  | PNone => match b with PNone => true | _ => false end
  | PStr s => match b with PStr t => String.eqb s t | _ => false end
  | PList l =>
      match b with
      | PList m =>
          (fix all2 (l : list (PyVal F)) (m : list (PyVal F)) : bool :=
             match l, m with
             | [], [] => true
             | x :: l', y :: m' => py_eq x y && all2 l' m'
             | _, _ => false
             end) l m
      | _ => false
      end
  | PDict d =>
      match b with
      | PDict e =>
          Nat.eqb (length d) (length e)
          && (fix items (d : list (string * PyVal F)) : bool :=
                match d with
                | [] => true
                | (k, v) :: d' =>
                    match dict_get e k with
                    | Some w => py_eq v w
                    | None => false
                    end && items d'
                end) d
      | _ => false
      end
  | PBool _ | PInt _ | PFloat _ =>
      match num_view a, num_view b with
      | Some x, Some y => num_eq x y
      | _, _ => false
      end
  end.

(** [pandas.isna] on a value of an object column. *)
Definition py_isna (v : PyVal F) : bool :=
  match v with
  | PNone => true
  | PFloat f => float_isnan f
  | _ => false
  end.

(** *** Field extraction: the body of the loop over [ONSPD_FIELD_MAPPINGS] *)

(** [value = str(cell).strip()], then [None] when empty or "nan". *)
Definition read_value (c : Cell) : option string :=
  let value := strip (py_str c) in
  if negb (str_truthy value) || String.eqb (lower value) "nan"
  then None else Some value.

(** The test on [depends_val]. *)
Definition dependency_is_null (depends_val : string) : bool :=
  negb (str_truthy depends_val)
  || String.eqb (lower depends_val) "nan"
  || String.eqb depends_val ""
  || String.eqb depends_val "0".

Definition check_dependency (hdr : HeaderMap) (row : Row) (fd : FieldDef)
    (value : option string) : option string :=
  match depends_on fd with
  | Some dep =>
      match cell_at row (get_idx hdr dep) with
      | Some c =>
          if dependency_is_null (strip (py_str c)) then None else value
      | None => value
      end
  | None => value
  end.

(** [try: value = transform(value) except Exception: value = None], under
    [if 'transform' in field_def and value]. *)
Definition apply_transform (fd : FieldDef) (value : option string)
  : option string :=
  match transform fd, value with
  | Some f, Some v =>
      if str_truthy v
      then match f v with Ok v' => Some v' | Raise _ => None end
      else value
  | _, _ => value
  end.

(** The type conversion.  [except (ValueError, TypeError)] leaves the
    [OverflowError] of [int(float('inf'))] uncaught. *)
Definition convert_type (fd : FieldDef) (value : option string)
  : Result (PyVal F) :=
  match value with
  | None => Ok PNone
  | Some v =>
      if str_truthy v then
        match type fd with
        | Some TInt =>
            match float_of_str v with
            | None => Ok PNone
            | Some f =>
                match int_of_float f with
                | Ok z => Ok (PInt z)
                | Raise ValueError | Raise TypeError => Ok PNone
                | Raise e => Raise e
                end
            end
        | Some TFloat =>
            match float_of_str v with
            | None => Ok PNone
            | Some f => Ok (PFloat f)
            end
        | None => Ok (PStr v)
        end
      else Ok (PStr v)
  end.

Definition extract_field (hdr : HeaderMap) (row : Row) (fd : FieldDef)
  : Result (PyVal F) :=
  match cell_at row (get_idx hdr (onspd_code fd)) with
  | Some c =>
      convert_type fd
        (apply_transform fd (check_dependency hdr row fd (read_value c)))
  | None => Ok PNone
  end.

(** The loop itself: [processed_row[field_def['column']] = value]. *)
Fixpoint extract_fields (defs : list FieldDef) (hdr : HeaderMap) (row : Row)
    (processed_row : FlatRecord) : Result FlatRecord :=
  match defs with
  | [] => Ok processed_row
  | fd :: defs' =>
      value ← extract_field hdr row fd;
      extract_fields defs' hdr row (<[column fd := value]> processed_row)
  end.

Definition extract_row (hdr : HeaderMap) (row : Row) : Result FlatRecord :=
  extract_fields ONSPD_FIELD_MAPPINGS hdr row ∅.

(** *** The lookup enricher: [_add_human_readable_names] *)

(** [code in lookup_table] for a dict: an unhashable key raises. *)
Definition dict_contains (d : list (string * PyVal F)) (code : PyVal F)
  : Result bool :=
  match code with
  | PStr s => Ok (bool_decide (is_Some (dict_get d s)))
  | PList _ | PDict _ => Raise TypeError
  | _ => Ok false
  end.

(** [lookup_table[code]] once [code in lookup_table] holds. *)
Definition dict_item (d : list (string * PyVal F)) (code : PyVal F)
  : Result (PyVal F) :=
  match code with
  | PStr s => match dict_get d s with Some v => Ok v | None => Raise KeyError end
  | PList _ | PDict _ => Raise TypeError
  | _ => Raise KeyError
  end.

(** [next((item for item in lookup_table if item.get('code') == code), None)]:
    [item.get] exists on dicts only. *)
Fixpoint find_match (lookup_table : list (PyVal F)) (code : PyVal F)
  : Result (PyVal F) :=
  match lookup_table with
  | [] => Ok PNone
  | item :: rest =>
      match item with
      | PDict d =>
          if py_eq (default PNone (dict_get d "code")) code
          then Ok item else find_match rest code
      | _ => Raise AttributeError
      end
  end.

(** One turn of the loop over the mappings. *)
Definition add_name (lookup_tables : gmap string (PyVal F))
    (m : NameMapping) (row : FlatRecord) : Result FlatRecord :=
  let code := default PNone (row !! code_field m) in
  if truthy code then
    match lookup_tables !! table_name m with
    | None => Ok row
    | Some lookup_table =>
        match lookup_table with
        | PDict d =>
            found ← dict_contains d code;
            if found : bool then
              lookup_result ← dict_item d code;
              match lookup_result with
              | PDict r =>
                  match dict_get r "name" with
                  | Some v => Ok (<[name_field m := v]> row)
                  | None =>
                      match dict_get r "value" with
                      | Some v => Ok (<[name_field m := v]> row)
                      | None => Ok (<[name_field m := lookup_result]> row)
                      end
                  end
              | _ => Ok (<[name_field m := lookup_result]> row)
              end
            else Ok row
        | PList items =>
            match_ ← find_match items code;
            if truthy match_ then
              match match_ with
              | PDict r =>
                  Ok (<[name_field m :=
                          default (default PNone (dict_get r "value"))
                                  (dict_get r "name")]> row)
              | _ => Ok (<[name_field m := match_]> row)
              end
            else Ok row
        | _ => Ok row
        end
    end
  else Ok row.

Fixpoint add_names (lookup_tables : gmap string (PyVal F))
    (ms : list NameMapping) (row : FlatRecord) : Result FlatRecord :=
  match ms with
  | [] => Ok row
  | m :: ms' =>
      row' ← add_name lookup_tables m row;
      add_names lookup_tables ms' row'
  end.

Definition add_human_readable_names (lookup_tables : gmap string (PyVal F))
    (row : FlatRecord) : Result FlatRecord :=
  add_names lookup_tables NAME_MAPPINGS row.

(** *** [_process_chunk] *)

(** The test that skips a terminated postcode. *)
Definition is_terminated (hdr : HeaderMap) (row : Row) : bool :=
  match cell_at row (get_idx hdr "doterm") with
  | Some c =>
      let doterm_val := strip (py_str c) in
      str_truthy doterm_val
      && negb (String.eqb doterm_val "nan")
      && (0 <? Z.of_nat (String.length doterm_val))
  | None => false
  end.

(** The test that skips a repeated header line. *)
Definition is_header_row (hdr : HeaderMap) (row : Row) : bool :=
  match cell_at row (get_idx hdr "pcd") with
  | Some c => String.eqb (lower (strip (py_str c))) "pcd"
  | None => false
  end.

(** One turn of the loop over the rows: the record appended to
    [processed_rows], if any. *)
Definition process_row (lookup_tables : gmap string (PyVal F))
    (hdr : HeaderMap) (row : Row) : Result (option FlatRecord) :=
  if is_terminated hdr row then Ok None
  else if is_header_row hdr row then Ok None
  else
    processed_row ← extract_row hdr row;
    processed_row ← add_human_readable_names lookup_tables processed_row;
    if truthy (default PNone (processed_row !! "postcode"))
    then Ok (Some processed_row) else Ok None.

(** The loop over the rows of a chunk: the list [processed_rows] at its
    end.  The frame built from it is [process_chunk_frame] below. *)
Fixpoint process_chunk (lookup_tables : gmap string (PyVal F))
    (hdr : HeaderMap) (chunk : list Row) : Result DataFrame :=
  match chunk with
  | [] => Ok []
  | row :: chunk' =>
      r ← process_row lookup_tables hdr row;
      rest ← process_chunk lookup_tables hdr chunk';
      Ok (match r with Some rec => rec :: rest | None => rest end)
  end.

End Processor.

(** ** Files, logging and the run *)

Inductive Level : Type := INFO | WARNING | ERROR.

Record ProcessingStats : Type := mkStats {
  total_rows_processed : Z;
  active_postcodes : Z;
  terminated_postcodes : Z;
  with_coordinates : Z
}.

(** The messages of the [logger] calls, with their arguments. *)
Inductive LogMsg : Type :=
  | FoundCsvFiles (n : nat)
  | ProcessingFile (i n : nat) (name : string)
  | ErrorProcessing (name : string) (e : exn)
  | NoValidData (name : string)
  | NoDataProcessed
  | CombiningData
  | ProcessingComplete (stats : ProcessingStats).

Definition LogRecord : Type := Level * LogMsg.

(** A computation that logs and may raise. *)
Definition M (A : Type) : Type := list LogRecord * Result A.

#[export] Instance M_ret : MRet M := fun _ a => ([], Ok a).
#[export] Instance M_bind : MBind M := fun _ _ k m =>
  match m with
  | (l, Ok a) => let '(l', r) := k a in ((l ++ l')%list, r)
  | (l, Raise e) => (l, Raise e)
  end.

Definition raise {A : Type} (e : exn) : M A := ([], Raise e).
Definition lift {A : Type} (r : Result A) : M A := ([], r).
Definition log (lvl : Level) (msg : LogMsg) : M unit := ([(lvl, msg)], Ok tt).

(** What reading one line of a file gives: a row, or the error the parser
    or the disk raises there.  Where the parser raises can depend on where
    the chunks start, so the bad lines of a file are those of the run at
    hand; a statement that compares two chunk sizes, or a file with and
    without one of its lines, is made of files whose lines are all rows. *)
Inductive Line : Type :=
  | DataRow (r : Row)
  | BadLine (e : exn).

(** A source file as the processor meets it: whether the path exists, what
    [pd.read_csv(path, nrows=0)] gives for the header, and what opening the
    file for chunked reading gives for the lines after it. *)
Record CsvFile : Type := mkCsvFile {
  file_name : string;
  file_exists : bool;
  header : Result (list string);
  body : Result (list Line)
}.

(** The chunks [pd.read_csv(..., chunksize=n)] yields: [n] lines at a time. *)
Fixpoint split_chunks_fuel {A : Type} (fuel n : nat) (l : list A)
  : list (list A) :=
  match fuel with
  | O => []
  | S fuel' =>
      match l with
      | [] => []
      | _ => take n l :: split_chunks_fuel fuel' n (drop n l)
      end
  end.

Definition split_chunks {A : Type} (n : nat) (l : list A) : list (list A) :=
  split_chunks_fuel (length l) n l.

(** Reading one chunk raises at its first bad line. *)
Fixpoint read_chunk (lines : list Line) : Result (list Row) :=
  match lines with
  | [] => Ok []
  | DataRow r :: lines' => rows ← read_chunk lines'; Ok (r :: rows)
  | BadLine e :: _ => Raise e
  end.

(** [pd.read_csv(csv_path, chunksize=chunk_size, ...)]: a chunk size below 1
    is refused with [ValueError]. *)
Definition open_chunks (f : CsvFile) (chunk_size : nat)
  : Result (list (list Line)) :=
  match chunk_size with
  | O => Raise ValueError
  | _ => lines ← body f; Ok (split_chunks chunk_size lines)
  end.

Section Run.
Context {F : Type} `{PyFloat F}.

Abbreviation FlatRecord := (gmap string (PyVal F)).
Abbreviation DataFrame := (list (gmap string (PyVal F))).

Variable lookup_tables : gmap string (PyVal F).

(** The body of [for chunk in pd.read_csv(...)]. *)
Fixpoint chunk_loop (hdr : HeaderMap) (stream : list (list Line))
    (chunks : list DataFrame) : Result (list DataFrame) :=
  match stream with
  | [] => Ok chunks
  | lines :: stream' =>
      chunk ← read_chunk lines;
      processed_chunk ← process_chunk lookup_tables hdr chunk;
      chunk_loop hdr stream'
        (match processed_chunk with
         | [] => chunks
         | _ => chunks ++ [processed_chunk]
         end)
  end.

(** [process_onspd_csv].  The header is read before the [try]; the [try]
    covers the chunked read and the processing of the chunks.  The result
    lists the rows of the frame returned, chunk after chunk;
    [process_onspd_csv_frame] below is that frame with its columns typed. *)
Definition process_onspd_csv (f : CsvFile) (chunk_size : nat) : M DataFrame :=
  if negb (file_exists f) then raise FileNotFoundError
  else
    columns ← lift (header f);
    let csv_column_mapping := column_mapping_of columns in
    match stream ← open_chunks f chunk_size;
          chunk_loop csv_column_mapping stream [] with
    | Raise e => log ERROR (ErrorProcessing (file_name f) e);; mret []
    | Ok [] => log WARNING (NoValidData (file_name f));; mret []
    | Ok chunks => mret (concat chunks)
    end.

(** [df[k]]: a key no record has is a [KeyError]; a record without the key
    shows the missing value in that column. *)
Definition frame_column (df : DataFrame) (k : string)
  : Result (list (PyVal F)) :=
  if existsb (fun r => bool_decide (is_Some (r !! k))) df
  then Ok ((fun r => default PNone (r !! k)) <$> df)
  else Raise KeyError.

Definition count_true (l : list bool) : Z :=
  Z.of_nat (length (filter (fun b => b = true) l)).

(** [len(file_stats[file_stats['date_of_termination'].isna()])] *)
Definition count_active (df : DataFrame) : Result Z :=
  col ← frame_column df "date_of_termination";
  Ok (count_true (py_isna <$> col)).

(** [len(file_stats.dropna(subset=['latitude', 'longitude']))] *)
Definition count_with_coordinates (df : DataFrame) : Result Z :=
  lat ← frame_column df "latitude";
  long ← frame_column df "longitude";
  Ok (count_true
        (zip_with (fun a b => negb (py_isna a) && negb (py_isna b)) lat long)).

(** The loop over the files: [all_chunks] and [stats] are its state. *)
Fixpoint files_loop (csv_files : list CsvFile) (i n : nat) (chunk_size : nat)
    (all_chunks : list DataFrame) (stats : ProcessingStats)
  : M (list DataFrame * ProcessingStats) :=
  match csv_files with
  | [] => mret (all_chunks, stats)
  | csv_file :: rest =>
      log INFO (ProcessingFile i n (file_name csv_file));;
      file_stats ← process_onspd_csv csv_file chunk_size;
      match file_stats with
      | [] => files_loop rest (S i) n chunk_size all_chunks stats
      | _ =>
          active ← lift (count_active file_stats);
          coords ← lift (count_with_coordinates file_stats);
          files_loop rest (S i) n chunk_size (all_chunks ++ [file_stats])
            (mkStats
               (total_rows_processed stats + Z.of_nat (length file_stats))
               (active_postcodes stats + active)
               (terminated_postcodes stats)
               (with_coordinates stats + coords))
      end
  end.

(** [process_onspd_csv_directory].  [directory] is [None] when the path does
    not exist, else the files [glob("*.csv")] finds.  Besides the combined
    frame the result carries the final [stats] of the run. *)
Definition process_onspd_csv_directory (directory : option (list CsvFile))
    (chunk_size : nat) : M (DataFrame * ProcessingStats) :=
  match directory with
  | None => raise FileNotFoundError
  | Some [] => raise ValueError
  | Some csv_files =>
      log INFO (FoundCsvFiles (length csv_files));;
      '(all_chunks, stats) ←
        files_loop csv_files 1 (length csv_files) chunk_size []
                   (mkStats 0 0 0 0);
      match all_chunks with
      | [] => log WARNING NoDataProcessed;; mret ([], stats)
      | _ =>
          log INFO CombiningData;;
          let combined_df := concat all_chunks in
          let stats :=
            mkStats (total_rows_processed stats) (active_postcodes stats)
                    (total_rows_processed stats - active_postcodes stats)
                    (with_coordinates stats) in
          log INFO (ProcessingComplete stats);;
          mret (combined_df, stats)
      end
  end.

(** The filter of [generate_enhanced_postcode_data]:
    [df[df['date_of_termination'].isna() | (df['date_of_termination'] == '')]]. *)
Definition active_df (df : DataFrame) : DataFrame :=
  filter (fun r =>
            let v := default PNone (r !! "date_of_termination") in
            py_isna v || py_eq v (PStr "") = true) df.

End Run.

(** ** Frames: the types pandas gives the columns

    The functions above follow the rows: [process_chunk] is the list
    [processed_rows] of a chunk, [process_onspd_csv] the rows of all the
    chunks of a file in order.  That is what the counters of a run look at
    (how many rows, which cells are missing).  The frames the methods
    return are built from these rows by [pd.DataFrame(processed_rows)] and
    [pd.concat(chunks, ignore_index=True)], and both type every column from
    the values they find in it; this section follows pandas 2.2 with its
    default options on the values the processor can put in a record.

    Of NumPy's types four can arise.  The typing is written column by
    column; [None] as a result means that the column lies outside what is
    modelled here (an integer outside the int64 range, or a column on which
    typing by blocks of columns could differ from typing by column). *)

Inductive Dtype : Type :=
  | np_bool
  | np_int64
  | np_float64
  | np_object.

Definition dtype_eqb (a b : Dtype) : bool :=
  match a, b with
  | np_bool, np_bool | np_int64, np_int64
  | np_float64, np_float64 | np_object, np_object => true
  | _, _ => false
  end.

(** What typing a column needs of floats besides [PyFloat]. *)
Class NumPyFloat (F : Type) : Type := {
  (** [float(n)]: the cast of an int64 to float64 *)
  float_of_int : Z -> F;
  (** [numpy.nan] *)
  float_nan : F
}.

#[export] Instance DecFloat_NumPyFloat : NumPyFloat DecFloat := {|
  float_of_int z := DFin z 0;
  float_nan := DNan
|}.

Section Frames.
Context {F : Type} `{PyFloat F} `{NumPyFloat F}.

(** A column: its dtype and its values, each as the Python object that
    reading the cell gives back. *)
Record Column : Type := mkColumn {
  col_dtype : Dtype;
  col_values : list (PyVal F)
}.

Record Frame : Type := mkFrame {
  n_rows : nat;
  frame_columns : gmap string Column
}.

(** [pd.DataFrame()] *)
Definition empty_frame : Frame := mkFrame 0 ∅.

(** [df.to_dict('records')]: the rows of a frame as dicts. *)
Definition to_records (fr : Frame) : list (gmap string (PyVal F)) :=
  (fun i => omap (fun c => col_values c !! i) (frame_columns fr))
    <$> seq 0 (n_rows fr).

(** *** [lib.maybe_convert_objects], which types a column of a new frame *)

Definition is_none (v : PyVal F) : bool :=
  match v with PNone => true | _ => false end.

Definition is_nan (v : PyVal F) : bool :=
  match v with PFloat f => float_isnan f | _ => false end.

Definition is_bool_object (v : PyVal F) : bool :=
  match v with PBool _ => true | _ => false end.

(** Tested after [is_nan]. *)
Definition is_float_object (v : PyVal F) : bool :=
  match v with PFloat f => negb (float_isnan f) | _ => false end.

Definition is_integer_object (v : PyVal F) : bool :=
  match v with PInt _ => true | _ => false end.

Definition in_int64 (v : PyVal F) : bool :=
  match v with
  | PInt z => (- 2 ^ 63 <=? z) && (z <? 2 ^ 63)
  | _ => true
  end.

(** A text, a list or a dict stops the loop: the column stays as it is. *)
Definition is_other_object (v : PyVal F) : bool :=
  match v with PStr _ | PList _ | PDict _ => true | _ => false end.

(** The entry of the [floats] array for a value. *)
Definition to_float64 (v : PyVal F) : PyVal F :=
  match v with
  | PNone => PFloat float_nan
  | PInt z => PFloat (float_of_int z)
  | _ => v
  end.

Definition maybe_convert_objects (objects : list (PyVal F)) : option Column :=
  let seen p := existsb p objects in
  let floats := mkColumn np_float64 (to_float64 <$> objects) in
  if seen is_other_object then Some (mkColumn np_object objects)
  else if seen is_bool_object then
    if forallb is_bool_object objects
    then Some (mkColumn np_bool objects)
    else Some (mkColumn np_object objects)
  else if negb (forallb in_int64 objects) then None
  else if seen is_none || seen is_nan then
    if seen is_float_object || seen is_integer_object || seen is_nan
    then Some floats
    else Some (mkColumn np_object objects)
  else if seen is_float_object then Some floats
  else if seen is_integer_object then Some (mkColumn np_int64 objects)
  else Some (mkColumn np_object objects).

(** [pd.DataFrame(rows)] for a list of dicts: the columns are the keys of
    all the dicts, a dict without the key shows NaN there. *)
Definition pd_DataFrame (rows : list (gmap string (PyVal F))) : option Frame :=
  let column (k : string) :=
    maybe_convert_objects
      ((fun r => default (PFloat float_nan) (r !! k)) <$> rows) in
  columns ← mapM (fun kv => c ← column kv.1; Some (kv.1, c))
                 (map_to_list (union_list rows));
  Some (mkFrame (length rows) (list_to_map columns)).

(** *** [pd.concat], which types a column from the types of its pieces *)

Definition find_common_type (dtypes : list Dtype) : Dtype :=
  match dtypes with
  | [] => np_object
  | d :: ds =>
      if forallb (dtype_eqb d) ds then d
      else if existsb (dtype_eqb np_object) dtypes then np_object
      else if existsb (dtype_eqb np_bool) dtypes then np_object
      else np_float64
  end.

Definition ensure_dtype_can_hold_na (d : Dtype) : Dtype :=
  match d with
  | np_int64 => np_float64
  | np_bool => np_object
  | _ => d
  end.

(** [JoinUnit.is_na]: a piece that holds missing values only. *)
Definition is_na (c : Column) : bool :=
  match col_dtype c with
  | np_float64 => forallb is_nan (col_values c)
  | np_object => forallb is_none (col_values c)
  | _ => false
  end.

Definition is_numeric (c : Column) : bool :=
  negb (dtype_eqb (col_dtype c) np_object).

(** The pieces on which typing by column and typing by block agree: no
    piece of a numeric type beside an object piece that holds a value, and
    no object piece whose missing values are not all [None]. *)
Definition typed_by_column (pieces : list Column) : bool :=
  negb (existsb is_numeric pieces
        && existsb (fun c => negb (is_numeric c) && negb (is_na c)) pieces)
  && forallb (fun c => is_numeric c
                       || negb (forallb (fun v => is_none v || is_nan v)
                                        (col_values c))
                       || is_na c) pieces.

Definition make_na_array (d : Dtype) (n : nat) (fill_value : PyVal F)
  : Column :=
  mkColumn d (replicate n (match d with
                           | np_float64 => PFloat float_nan
                           | _ => fill_value
                           end)).

(** [JoinUnit.get_reindexed_values]: a frame without the column gives NaN;
    a piece of missing values only is made anew in the type found for the
    others, unless that type holds no missing value. *)
Definition get_reindexed_values (empty_dtype : Dtype)
    (piece : nat * option Column) : Column :=
  match piece.2 with
  | None => make_na_array empty_dtype piece.1 (PFloat float_nan)
  | Some c =>
      match empty_dtype with
      | np_bool | np_int64 => c
      | _ =>
          if is_na c
          then make_na_array empty_dtype (length (col_values c))
                 (if is_numeric c then PFloat float_nan else PNone)
          else c
      end
  end.

Definition astype (d : Dtype) (c : Column) : list (PyVal F) :=
  match d with
  | np_float64 => to_float64 <$> col_values c
  | _ => col_values c
  end.

(** One column of the result, from what each frame has for it: the number
    of rows of the frame, and its column if it has one. *)
Definition concat_column (pieces : list (nat * option Column))
  : option Column :=
  let present := omap snd pieces in
  if negb (typed_by_column present) then None
  else
    let has_none_blocks := existsb (fun p => negb (bool_decide (is_Some p.2)))
                                   pieces in
    let dtypes :=
      match filter (fun c => is_na c = false) present with
      | [] => col_dtype <$> present
      | not_na => col_dtype <$> not_na
      end in
    let empty_dtype :=
      if has_none_blocks
      then ensure_dtype_can_hold_na (find_common_type dtypes)
      else find_common_type dtypes in
    let to_concat := get_reindexed_values empty_dtype <$> pieces in
    let d := find_common_type (col_dtype <$> to_concat) in
    Some (mkColumn d (concat (astype d <$> to_concat))).

(** [pd.concat(frames, ignore_index=True)] *)
Definition pd_concat (frames : list Frame) : option Frame :=
  let column (k : string) :=
    concat_column ((fun fr => (n_rows fr, frame_columns fr !! k)) <$> frames) in
  columns ← mapM (fun kv => c ← column kv.1; Some (kv.1, c))
                 (map_to_list (union_list (frame_columns <$> frames)));
  Some (mkFrame (sum_list (n_rows <$> frames)) (list_to_map columns)).

(** *** The frames of the processor *)

Variable lookup_tables : gmap string (PyVal F).

(** What [_process_chunk] returns: [pd.DataFrame(processed_rows)]. *)
Definition process_chunk_frame (hdr : HeaderMap) (chunk : list Row)
  : Result (option Frame) :=
  processed_rows ← process_chunk lookup_tables hdr chunk;
  Ok (pd_DataFrame processed_rows).

(** [pd.concat(chunks, ignore_index=True)] on the frames of the chunks,
    each given by its rows. *)
Definition concat_chunks (chunks : list (list (gmap string (PyVal F))))
  : option Frame :=
  frames ← mapM pd_DataFrame chunks; pd_concat frames.

(** What [process_onspd_csv] returns, apart from its log: the frame of the
    chunks that gave a row, the empty frame if none did or if the [try]
    caught an error. *)
Definition process_onspd_csv_frame (f : CsvFile) (chunk_size : nat)
  : Result (option Frame) :=
  if negb (file_exists f) then Raise FileNotFoundError
  else
    columns ← header f;
    match stream ← open_chunks f chunk_size;
          chunk_loop lookup_tables (column_mapping_of columns) stream [] with
    | Raise _ | Ok [] => Ok (Some empty_frame)
    | Ok chunks => Ok (concat_chunks chunks)
    end.

End Frames.

(** ** Sample data

    A small file in the layout of an ONSPD extract, on which the statements
    below are run. *)

Module Sample.

Definition columns : list string :=
  ["pcd"; "pcds"; "doterm"; "oseast1m"; "osnrth1m"; "lat"; "long"; "ctry"].

Definition hdr : HeaderMap := column_mapping_of columns.

(** The same file without its northings column. *)
Definition columns_no_northings : list string :=
  ["pcd"; "pcds"; "doterm"; "oseast1m"; "lat"; "long"; "ctry"].

Definition hdr_no_northings : HeaderMap :=
  column_mapping_of columns_no_northings.

Definition row_active : Row :=
  [CStr "SW1A1AA"; CStr "SW1A 1AA"; CNaN; CStr "529090"; CStr "179645";
   CStr "51.501009"; CStr "-0.141588"; CStr "E92000001"].

Definition row_northings_zero : Row :=
  [CStr "SW1A1AA"; CStr "SW1A 1AA"; CNaN; CStr "529090"; CStr "0";
   CStr "51.501009"; CStr "-0.141588"; CStr "E92000001"].

Definition row_terminated : Row :=
  [CStr "AB1 0AA"; CStr "AB1 0AA"; CStr "2020-01-01"; CStr "385386";
   CStr "801193"; CStr "57.101474"; CStr "-2.242851"; CStr "S92000003"].

(** A termination cell that holds the text "nan". *)
Definition row_doterm_nan : Row :=
  [CStr "AB1 0AB"; CStr "AB1 0AB"; CStr "nan"; CStr "385177";
   CStr "801314"; CStr "57.102554"; CStr "-2.246308"; CStr "S92000003"].

Definition row_no_space : Row :=
  [CStr "SW1A1AA"; CStr "SW1A1AA"; CNaN; CStr "529090"; CStr "179645";
   CStr "51.501009"; CStr "-0.141588"; CStr "E92000001"].

Definition row_no_northings : Row :=
  [CStr "SW1A1AA"; CStr "SW1A 1AA"; CNaN; CStr "529090";
   CStr "51.501009"; CStr "-0.141588"; CStr "E92000001"].

Definition lookup_tables : gmap string (PyVal DecFloat) :=
  {[ "countries" := PDict [("E92000001", PStr "England");
                           ("S92000003", PStr "Scotland")] ]}.

Definition good_file : CsvFile :=
  mkCsvFile "good.csv" true (Ok columns)
            (Ok [DataRow row_active; DataRow row_terminated]).

(** A file whose header cannot be read (an empty file, say). *)
Definition bad_header_file : CsvFile :=
  mkCsvFile "empty.csv" true (Raise EmptyDataError) (Raise EmptyDataError).

(** A file with a malformed line after the first row. *)
Definition bad_line_file : CsvFile :=
  mkCsvFile "broken.csv" true (Ok columns)
            (Ok [DataRow row_active; BadLine ParserError]).

(** A postcode without grid reference: no eastings, no northings. *)
Definition row_no_grid_ref : Row :=
  [CStr "GY1 1AA"; CStr "GY1 1AA"; CNaN; CNaN; CNaN;
   CStr "99.999999"; CStr "0.000000"; CStr "L93000001"].

Definition grid_file : CsvFile :=
  mkCsvFile "grid.csv" true (Ok columns)
            (Ok [DataRow row_active; DataRow row_no_grid_ref]).

(** The [latitude] entry of the mapping table. *)
Definition latitude_def : FieldDef :=
  mkFieldDef "latitude" "lat" (Some TFloat) None (Some "osnrth1m").

(** The record a row gives, the empty dict standing for none. *)
Definition record_of (h : HeaderMap) (row : Row) : gmap string (PyVal DecFloat) :=
  match process_row lookup_tables h row with
  | Ok (Some r) => r
  | _ => ∅
  end.

Definition record_active : gmap string (PyVal DecFloat) :=
  Eval vm_compute in record_of hdr row_active.

Definition record_no_space : gmap string (PyVal DecFloat) :=
  Eval vm_compute in record_of hdr row_no_space.

Definition record_doterm_nan : gmap string (PyVal DecFloat) :=
  Eval vm_compute in record_of hdr row_doterm_nan.

Definition record_no_northings : gmap string (PyVal DecFloat) :=
  Eval vm_compute in record_of hdr_no_northings row_no_northings.

Definition record_no_grid_ref : gmap string (PyVal DecFloat) :=
  Eval vm_compute in record_of hdr row_no_grid_ref.

(** The frame a call returns, the empty frame standing for none. *)
Definition frame_of (r : Result (option (Frame (F := DecFloat))))
  : Frame (F := DecFloat) :=
  match r with
  | Ok (Some fr) => fr
  | _ => empty_frame
  end.

(** The frame of [grid_file] read as one chunk of its two rows, and read in
    chunks of one row. *)
Definition grid_frame_whole : Frame (F := DecFloat) :=
  Eval vm_compute in
    frame_of (process_onspd_csv_frame lookup_tables grid_file 2).

Definition grid_frame_ones : Frame (F := DecFloat) :=
  Eval vm_compute in
    frame_of (process_onspd_csv_frame lookup_tables grid_file 1).

(** A record as the extractor leaves it, and the same after the enricher. *)
Definition coded_record : gmap string (PyVal DecFloat) :=
  {[ "postcode" := PStr "SW1A 1AA"; "country_code" := PStr "E92000001" ]}.

Definition enriched_record : gmap string (PyVal DecFloat) :=
  <[ "country" := PStr "England" ]> coded_record.

End Sample.

(** ** Notions the statements use *)

Section Views.
Context {F : Type} `{PyFloat F}.

(** A record with its label fields taken away. *)
Definition remove_labels (r : gmap string (PyVal F)) : gmap string (PyVal F) :=
  filter (fun kv => kv.1 ∉ label_fields) r.

(** The same mapping without its [depends_on] key. *)
Definition without_depends_on (fd : FieldDef) : FieldDef :=
  mkFieldDef (column fd) (onspd_code fd) (type fd) (transform fd) None.

(** The number of lines after the header. *)
Definition row_count (f : CsvFile) : nat :=
  match body f with
  | Ok lines => length lines
  | Raise _ => 0%nat
  end.

(** A file with other lines after the same header. *)
Definition with_body (f : CsvFile) (lines : list Line) : CsvFile :=
  mkCsvFile (file_name f) (file_exists f) (header f) (Ok lines).

(** What a file gives when it is read and processed in one piece; any error
    after the header leaves the empty frame. *)
Definition file_result (lookup_tables : gmap string (PyVal F)) (f : CsvFile)
  : Result (list (gmap string (PyVal F))) :=
  if negb (file_exists f) then Raise FileNotFoundError
  else
    columns ← header f;
    match lines ← body f;
          chunk ← read_chunk lines;
          process_chunk lookup_tables (column_mapping_of columns) chunk with
    | Ok df => Ok df
    | Raise _ => Ok []
    end.

(** The counters of a run that count rows: [total_rows_processed],
    [active_postcodes] and [with_coordinates]. *)
Definition run_counts
    (r : Result (list (gmap string (PyVal F)) * ProcessingStats))
  : Result (Z * Z * Z) :=
  '(_, stats) ← r;
  Ok (total_rows_processed stats, active_postcodes stats,
      with_coordinates stats).

(** Reading and processing some lines in one piece. *)
Definition read_and_process (lookup_tables : gmap string (PyVal F))
    (hdr : HeaderMap) (lines : list Line)
  : Result (list (gmap string (PyVal F))) :=
  chunk ← read_chunk lines; process_chunk lookup_tables hdr chunk.

(** Two files that give the same result to [process_onspd_csv]. *)
Definition same_outcome (lookup_tables : gmap string (PyVal F))
    (chunk_size : nat) (f f' : CsvFile) : Prop :=
  (process_onspd_csv lookup_tables f chunk_size).2 =
  (process_onspd_csv lookup_tables f' chunk_size).2.

(** What the loop over the files keeps true of its state. *)
Definition stats_inv (all_chunks : list (list (gmap string (PyVal F))))
    (stats : ProcessingStats) : Prop :=
  0 <= active_postcodes stats <= total_rows_processed stats
  /\ 0 <= with_coordinates stats <= total_rows_processed stats
  /\ terminated_postcodes stats = 0
  /\ (all_chunks = [] -> total_rows_processed stats = 0).

End Views.

(** * Properties *)

Section ExtractorProperties.
Context {F : Type} `{PyFloat F}.
Implicit Types (hdr : HeaderMap) (row : Row) (fd : FieldDef).
Implicit Types (r acc : gmap string (PyVal F)).

Lemma rbind_Ok {A B : Type} (m : Result A) (k : A -> Result B) (b : B) :
  m ≫= k = Ok b -> exists a, m = Ok a /\ k a = Ok b.
Proof. destruct m as [a|e]; simpl; [eauto | discriminate]. Qed.

Lemma str_truthy_nonempty (s : string) : str_truthy s = true <-> s <> "".
Proof. destruct s; simpl; split; congruence. Qed.

Lemma target_columns_NoDup : NoDup target_columns.
Proof. apply (bool_decide_unpack _). vm_compute. reflexivity. Qed.

Lemma target_columns_not_labels (k : string) :
  k ∈ target_columns -> k ∉ label_fields.
Proof.
  intros Hk Hl.
  assert (Hdis : forallb (fun c => negb (bool_decide (c ∈ label_fields)))
                         target_columns = true) by (vm_compute; reflexivity).
  rewrite forallb_forall in Hdis.
  apply list_elem_of_In, Hdis in Hk.
  apply negb_true_iff, bool_decide_eq_false in Hk. contradiction.
Qed.

Lemma code_fields_not_labels (k : string) :
  k ∈ code_fields -> k ∉ label_fields.
Proof.
  intros Hk Hl.
  assert (Hdis : forallb (fun c => negb (bool_decide (c ∈ label_fields)))
                         code_fields = true) by (vm_compute; reflexivity).
  rewrite forallb_forall in Hdis.
  apply list_elem_of_In, Hdis in Hk.
  apply negb_true_iff, bool_decide_eq_false in Hk. contradiction.
Qed.

(** The loop over the mappings leaves the other keys alone ... *)
Lemma extract_fields_other defs hdr row acc r (k : string) :
  extract_fields defs hdr row acc = Ok r ->
  k ∉ column <$> defs -> r !! k = acc !! k.
Proof.
  revert acc. induction defs as [|fd defs IH]; intros acc Hx Hk; simpl in *.
  - congruence.
  - apply rbind_Ok in Hx as (v & _ & Hx).
    apply not_elem_of_cons in Hk as [Hne Hk].
    rewrite (IH _ Hx Hk). by apply lookup_insert_ne.
Qed.

(** ... and stores under each column what [extract_field] gives for it. *)
Lemma extract_fields_lookup defs hdr row acc r fd :
  extract_fields defs hdr row acc = Ok r ->
  NoDup (column <$> defs) -> fd ∈ defs ->
  exists v, extract_field hdr row fd = Ok v /\ r !! column fd = Some v.
Proof.
  revert acc. induction defs as [|fd' defs IH]; intros acc Hx Hnd Hin.
  - by apply elem_of_nil in Hin.
  - simpl in Hx. apply rbind_Ok in Hx as (v & Hv & Hx).
    rewrite fmap_cons in Hnd. apply NoDup_cons in Hnd as [Hfresh Hnd].
    apply elem_of_cons in Hin as [-> | Hin].
    + exists v. split; [done|].
      rewrite (extract_fields_other _ _ _ _ _ _ Hx Hfresh).
      apply lookup_insert_eq.
    + eauto.
Qed.

Lemma extract_row_lookup hdr row r fd :
  extract_row hdr row = Ok r -> fd ∈ ONSPD_FIELD_MAPPINGS ->
  exists v, extract_field hdr row fd = Ok v /\ r !! column fd = Some v.
Proof.
  intros Hx Hin.
  exact (extract_fields_lookup _ _ _ _ _ _ Hx target_columns_NoDup Hin).
Qed.

(** The keys of an extracted record are the target columns. *)
Lemma extract_fields_keys defs hdr row acc r (k : string) :
  extract_fields defs hdr row acc = Ok r ->
  is_Some (r !! k) -> k ∈ column <$> defs \/ is_Some (acc !! k).
Proof.
  intros Hx Hk.
  destruct (decide (k ∈ column <$> defs)) as [|Hn]; [by left | right].
  by rewrite <- (extract_fields_other _ _ _ _ _ _ Hx Hn).
Qed.

Lemma extract_row_no_labels hdr row r (k : string) :
  extract_row hdr row = Ok r -> k ∈ label_fields -> r !! k = None.
Proof.
  intros Hx Hk. apply eq_None_not_Some. intros Hs.
  destruct (extract_fields_keys _ _ _ _ _ _ Hx Hs) as [Hc | He].
  - by apply target_columns_not_labels in Hc.
  - rewrite lookup_empty in He. by destruct He.
Qed.

End ExtractorProperties.

Section EnricherProperties.
Context {F : Type} `{PyFloat F}.
Implicit Types (r : gmap string (PyVal F)) (tables : gmap string (PyVal F)).

(** One turn of the enricher writes at most the label field of its triple. *)
Lemma add_name_other tables m r r' (k : string) :
  add_name tables m r = Ok r' -> k <> name_field m -> r' !! k = r !! k.
Proof.
  intros Hx Hk. unfold add_name in Hx.
  repeat match type of Hx with
         | Ok _ = Ok _ => injection Hx as <-
         | Raise _ = Ok _ => discriminate
         | _ ≫= _ = Ok _ => apply rbind_Ok in Hx as (? & ? & Hx)
         | context [match ?x with _ => _ end] => destruct x eqn:?
         end;
    try reflexivity; by apply lookup_insert_ne.
Qed.

Lemma add_names_other tables ms r r' (k : string) :
  add_names tables ms r = Ok r' -> k ∉ name_field <$> ms -> r' !! k = r !! k.
Proof.
  revert r. induction ms as [|m ms IH]; intros r Hx Hk; simpl in *.
  - congruence.
  - apply rbind_Ok in Hx as (r1 & H1 & Hx).
    apply not_elem_of_cons in Hk as [Hne Hk].
    rewrite (IH _ Hx Hk). by apply (add_name_other tables m).
Qed.

Lemma enrich_other tables r r' (k : string) :
  add_human_readable_names tables r = Ok r' ->
  k ∉ label_fields -> r' !! k = r !! k.
Proof. apply add_names_other. Qed.

Lemma remove_labels_lookup r (k : string) :
  remove_labels r !! k = if decide (k ∈ label_fields) then None else r !! k.
Proof.
  unfold remove_labels. rewrite map_lookup_filter.
  destruct (r !! k) as [v|]; simpl.
  - case_guard; case_decide; simpl in *; done.
  - by case_decide.
Qed.

End EnricherProperties.

Section RowProperties.
Context {F : Type} `{PyFloat F}.
Implicit Types (hdr : HeaderMap) (row : Row) (fd : FieldDef).
Implicit Types (r : gmap string (PyVal F)) (tables : gmap string (PyVal F)).

Lemma process_row_Some tables hdr row r :
  process_row tables hdr row = Ok (Some r) ->
  exists r0,
    is_terminated hdr row = false /\ is_header_row hdr row = false /\
    extract_row hdr row = Ok r0 /\
    add_human_readable_names tables r0 = Ok r /\
    truthy (default PNone (r !! "postcode")) = true.
Proof.
  unfold process_row. intros Hx.
  destruct (is_terminated hdr row); [discriminate|].
  destruct (is_header_row hdr row); [discriminate|].
  apply rbind_Ok in Hx as (r0 & H0 & Hx).
  apply rbind_Ok in Hx as (r1 & H1 & Hx).
  destruct (truthy _) eqn:Ht; [|discriminate].
  injection Hx as <-. eauto 10.
Qed.

(** A retained record holds, under each target column, what the extractor
    computed for that column. *)
Lemma process_row_field tables hdr row r fd :
  process_row tables hdr row = Ok (Some r) -> fd ∈ ONSPD_FIELD_MAPPINGS ->
  exists v, extract_field hdr row fd = Ok v /\ r !! column fd = Some v.
Proof.
  intros Hx Hin. apply process_row_Some in Hx as (r0 & _ & _ & H0 & H1 & _).
  destruct (extract_row_lookup _ _ _ _ H0 Hin) as (v & Hv & Hr).
  exists v. split; [done|].
  rewrite (enrich_other _ _ _ _ H1); [done|].
  apply target_columns_not_labels, list_elem_of_fmap. eauto.
Qed.

Lemma dependency_is_null_spec (v : string) :
  v = "" \/ v = "nan" \/ v = "0" -> dependency_is_null v = true.
Proof. by intros [-> | [-> | ->]]. Qed.

(** C1. Whenever a mapping declares [depends_on] and the dependency cell,
    found through the header map, is empty after trimming, is "nan" (the
    missing cell prints as "nan" too) or is "0", the extractor gives [None]
    for the target, whatever the target's own cell holds; for a mapping of
    the table, a retained record then has [None] under that column. *)
Theorem dependency_null_forces_null tables hdr row fd (dep : string) (c : Cell) :
  depends_on fd = Some dep ->
  cell_at row (get_idx hdr dep) = Some c ->
  strip (py_str c) = "" \/ strip (py_str c) = "nan" \/ strip (py_str c) = "0" ->
  extract_field hdr row fd = Ok PNone /\
  (fd ∈ ONSPD_FIELD_MAPPINGS ->
   forall r, process_row tables hdr row = Ok (Some r) ->
             r !! column fd = Some PNone).
Proof.
  intros Hdep Hcell Hnull.
  assert (Hf : extract_field hdr row fd = Ok PNone).
  { unfold extract_field.
    destruct (cell_at row (get_idx hdr (onspd_code fd))) as [c'|]; [|done].
    unfold check_dependency. rewrite Hdep, Hcell.
    rewrite (dependency_is_null_spec _ Hnull).
    unfold apply_transform. by destruct (transform fd). }
  split; [done|].
  intros Hin r Hr.
  destruct (process_row_field _ _ _ _ _ Hr Hin) as (v & Hv & Hl).
  congruence.
Qed.

Lemma transform_incode_no_space (v : string) :
  contains_space v = false -> transform_incode v = Ok "".
Proof.
  intros Hv. unfold transform_incode. rewrite Hv.
  by rewrite andb_false_r.
Qed.

Lemma transform_outcode_no_space (v : string) :
  contains_space v = false -> transform_outcode v = Ok "".
Proof.
  intros Hv. unfold transform_outcode. rewrite Hv.
  by rewrite andb_false_r.
Qed.

Lemma read_value_truthy (c : Cell) (v : string) :
  read_value c = Some v -> v = strip (py_str c) /\ str_truthy v = true.
Proof.
  unfold read_value. destruct (str_truthy (strip (py_str c))) eqn:Ht; simpl.
  - destruct (String.eqb _ _); [discriminate|]. intros [= <-]. done.
  - discriminate.
Qed.

(** With no column for the dependency the extractor leaves the value read
    from the target's own cell as it is. *)
Lemma check_dependency_absent hdr row fd (dep : string) (value : option string) :
  depends_on fd = Some dep -> hdr !! dep = None ->
  check_dependency hdr row fd value = value.
Proof.
  intros Hdep Habs. unfold check_dependency, get_idx.
  rewrite Hdep, Habs. simpl.
  by replace (cell_at row (-1)) with (@None Cell) by done.
Qed.

(** C9. When the code named by [depends_on] is not a column of the file, no
    nulling takes place: the extractor gives for the target what its own
    cell gives, that is the text read from the cell, transformed and then
    converted ([None] when the target has no cell in the row).  Spelled out
    for a mapping of type float without transform, which is what the two
    mappings of the table that declare [depends_on] are: when the cell reads
    as the text [v] and [float(v)] is [x], the target is the float [x], and
    a retained record holds [x] under the target column. *)
Theorem absent_dependency_no_nulling tables hdr row fd (dep : string) :
  depends_on fd = Some dep ->
  hdr !! dep = None ->
  extract_field hdr row fd =
    match cell_at row (get_idx hdr (onspd_code fd)) with
    | Some c => convert_type fd (apply_transform fd (read_value c))
    | None => Ok PNone
    end
  /\ (forall (c : Cell) (v : string) (x : F),
        cell_at row (get_idx hdr (onspd_code fd)) = Some c ->
        read_value c = Some v ->
        transform fd = None -> type fd = Some TFloat ->
        float_of_str v = Some x ->
        extract_field hdr row fd = Ok (PFloat x)
        /\ (fd ∈ ONSPD_FIELD_MAPPINGS ->
            forall r, process_row tables hdr row = Ok (Some r) ->
                      r !! column fd = Some (PFloat x))).
Proof.
  intros Hdep Habs.
  assert (Hf : extract_field hdr row fd =
               match cell_at row (get_idx hdr (onspd_code fd)) with
               | Some c => convert_type fd (apply_transform fd (read_value c))
               | None => Ok PNone
               end).
  { unfold extract_field.
    destruct (cell_at row (get_idx hdr (onspd_code fd))) as [c|]; [|done].
    by rewrite (check_dependency_absent _ _ _ dep). }
  split; [done|].
  intros c v x Hcell Hread Htr Hty Hx.
  destruct (read_value_truthy _ _ Hread) as [_ Ht].
  assert (Hv : extract_field hdr row fd = Ok (PFloat x)).
  { rewrite Hf, Hcell, Hread. unfold apply_transform. rewrite Htr.
    unfold convert_type. by rewrite Ht, Hty, Hx. }
  split; [done|].
  intros Hin r Hr.
  destruct (process_row_field _ _ _ _ _ Hr Hin) as (w & Hw & Hl).
  congruence.
Qed.

(** C8. When the [pcds] cell of a retained row is not null, [v] being its
    text as the extractor reads it, and [v] has no space in it, the record
    has the empty string (not [None]) under [incode] and [outcode], [v]
    under [postcode] and [v] without its spaces under [pc_compact]. *)
Theorem no_space_postcode_fields tables hdr row (c : Cell) (v : string) r :
  cell_at row (get_idx hdr "pcds") = Some c ->
  read_value c = Some v ->
  contains_space v = false ->
  process_row tables hdr row = Ok (Some r) ->
  r !! "incode" = Some (PStr "") /\
  r !! "outcode" = Some (PStr "") /\
  r !! "postcode" = Some (PStr v) /\
  r !! "pc_compact" = Some (PStr (remove_spaces v)).
Proof.
  intros Hcell Hread Hsp Hr.
  destruct (read_value_truthy _ _ Hread) as [_ Ht].
  assert (Hfield : forall fd, fd ∈ ONSPD_FIELD_MAPPINGS ->
             onspd_code fd = "pcds" -> depends_on fd = None ->
             type fd = None ->
             forall w, apply_transform fd (Some v) = Some w ->
             r !! column fd = Some (PStr w)).
  { intros fd Hin Hcode Hdep Hty w Hw.
    destruct (process_row_field _ _ _ _ _ Hr Hin) as (x & Hx & Hl).
    rewrite Hl. f_equal.
    unfold extract_field in Hx. rewrite Hcode, Hcell in Hx.
    unfold check_dependency in Hx. rewrite Hdep, Hread, Hw in Hx.
    unfold convert_type in Hx. rewrite Hty in Hx.
    destruct (str_truthy w); congruence. }
  repeat split.
  - apply (Hfield (transformed "incode" "pcds" transform_incode));
      [set_solver | done..|].
    unfold apply_transform; simpl.
    by rewrite Ht, transform_incode_no_space.
  - apply (Hfield (transformed "outcode" "pcds" transform_outcode));
      [set_solver | done..|].
    unfold apply_transform; simpl.
    by rewrite Ht, transform_outcode_no_space.
  - by apply (Hfield (plain "postcode" "pcds")); [set_solver | done..].
  - apply (Hfield (transformed "pc_compact" "pcds" transform_compact));
      [set_solver | done..|].
    unfold apply_transform, transform_compact; simpl. by rewrite Ht.
Qed.

End RowProperties.

Section ChunkProperties.
Context {F : Type} `{PyFloat F}.
Implicit Types (hdr : HeaderMap) (row : Row) (chunk : list Row).
Implicit Types (r : gmap string (PyVal F)) (tables : gmap string (PyVal F)).
Implicit Types (df : list (gmap string (PyVal F))).

(** What the first mapping, [postcode] from [pcds], can give. *)
Lemma extract_postcode hdr row (v : PyVal F) :
  extract_field hdr row (plain "postcode" "pcds") = Ok v ->
  v = PNone \/ exists s, v = PStr s /\ s <> "".
Proof.
  unfold extract_field; simpl.
  destruct (cell_at row (get_idx hdr "pcds")) as [c|]; [|intros [= <-]; by left].
  unfold check_dependency, apply_transform; simpl.
  destruct (read_value c) as [s|] eqn:Hs; simpl; [|intros [= <-]; by left].
  destruct (read_value_truthy _ _ Hs) as [_ Ht]. rewrite Ht.
  intros [= <-]. right. exists s. split; [done|].
  by apply str_truthy_nonempty.
Qed.

Lemma process_row_postcode tables hdr row r :
  process_row tables hdr row = Ok (Some r) ->
  exists s, r !! "postcode" = Some (PStr s) /\ s <> "".
Proof.
  intros Hr.
  destruct (process_row_field tables hdr row r (plain "postcode" "pcds") Hr)
    as (v & Hv & Hl); [set_solver|].
  apply process_row_Some in Hr as (_ & _ & _ & _ & _ & Ht).
  simpl in Hl. rewrite Hl in Ht. simpl in Ht.
  destruct (extract_postcode _ _ _ Hv) as [-> | (s & -> & Hs)];
    [discriminate | eauto].
Qed.

Lemma process_chunk_elem tables hdr chunk df r :
  process_chunk tables hdr chunk = Ok df -> r ∈ df ->
  exists row, row ∈ chunk /\ process_row tables hdr row = Ok (Some r).
Proof.
  revert df. induction chunk as [|row chunk IH]; intros df Hx Hin; simpl in Hx.
  - injection Hx as <-. by apply elem_of_nil in Hin.
  - apply rbind_Ok in Hx as (o & Ho & Hx).
    apply rbind_Ok in Hx as (rest & Hrest & Hx).
    injection Hx as <-.
    destruct o as [rec|].
    + apply elem_of_cons in Hin as [-> | Hin].
      * exists row. split; [left | done].
      * destruct (IH _ Hrest Hin) as (row' & ? & ?).
        exists row'. split; [by right | done].
    + destruct (IH _ Hrest Hin) as (row' & ? & ?).
      exists row'. split; [by right | done].
Qed.

(** C7. Every record in the frame a chunk gives has a text that is not
    empty under [postcode]; a row that yields [None] or nothing there is
    left out of the frame, and so out of all that is computed from it. *)
Theorem chunk_records_have_postcode tables hdr chunk df r :
  process_chunk tables hdr chunk = Ok df ->
  r ∈ df ->
  exists s, r !! "postcode" = Some (PStr s) /\ s <> "".
Proof.
  intros Hx Hin.
  destruct (process_chunk_elem _ _ _ _ _ Hx Hin) as (row & _ & Hr).
  by apply process_row_postcode in Hr.
Qed.

(** C6. The enricher writes label fields only.  Every field that is not a
    label field, each coded field among them, has in the enriched record the
    value it had before; taking the label fields away from the enriched
    record gives what the same does to the record before; and for a record
    that has no label field yet, as every extracted record is, the enriched
    record extends it and gives it back once the label fields are taken
    away. *)
Theorem enricher_is_additive tables r r' :
  add_human_readable_names tables r = Ok r' ->
  (forall k : string, k ∉ label_fields -> r' !! k = r !! k) /\
  (forall k : string, k ∈ code_fields -> r' !! k = r !! k) /\
  remove_labels r' = remove_labels r /\
  ((forall k : string, k ∈ label_fields -> r !! k = None) ->
   r ⊆ r' /\ remove_labels r' = r) /\
  (forall hdr row, extract_row hdr row = Ok r ->
                   r ⊆ r' /\ remove_labels r' = r).
Proof.
  intros Hx.
  assert (Hother : forall k : string, k ∉ label_fields -> r' !! k = r !! k).
  { intros k Hk. by apply (enrich_other tables). }
  assert (Hrem : remove_labels r' = remove_labels r).
  { apply map_eq. intros k. rewrite !remove_labels_lookup.
    case_decide; [done | by apply Hother]. }
  assert (Hfresh : (forall k : string, k ∈ label_fields -> r !! k = None) ->
                   r ⊆ r' /\ remove_labels r' = r).
  { intros Hno. split.
    - apply map_subseteq_spec. intros k v Hk.
      destruct (decide (k ∈ label_fields)) as [Hl|Hl].
      + rewrite (Hno _ Hl) in Hk. discriminate.
      + by rewrite (Hother _ Hl).
    - rewrite Hrem. apply map_eq. intros k. rewrite remove_labels_lookup.
      case_decide; [by rewrite Hno | done]. }
  repeat split; try done.
  - intros k Hk. by apply Hother, code_fields_not_labels.
  - by apply Hfresh.
  - by apply Hfresh.
  - apply Hfresh. intros k Hk. by apply (extract_row_no_labels hdr row).
  - apply Hfresh. intros k Hk. by apply (extract_row_no_labels hdr row).
Qed.

End ChunkProperties.

Section ChunkingProperties.
Context {F : Type} `{PyFloat F}.
Variable tables : gmap string (PyVal F).
Implicit Types (hdr : HeaderMap) (row : Row) (lines : list Line).
Implicit Types (df : list (gmap string (PyVal F))).

Lemma read_chunk_app lines1 lines2 :
  read_chunk (lines1 ++ lines2) =
  rows1 ← read_chunk lines1; rows2 ← read_chunk lines2; Ok (rows1 ++ rows2).
Proof.
  induction lines1 as [|[r|e] lines1 IH]; simpl.
  - by destruct (read_chunk lines2).
  - rewrite IH. destruct (read_chunk lines1); simpl; [|done].
    by destruct (read_chunk lines2).
  - done.
Qed.

Lemma process_chunk_app hdr (chunk1 chunk2 : list Row) :
  process_chunk tables hdr (chunk1 ++ chunk2) =
  df1 ← process_chunk tables hdr chunk1;
  df2 ← process_chunk tables hdr chunk2;
  Ok (df1 ++ df2).
Proof.
  induction chunk1 as [|row chunk1 IH]; simpl.
  - by destruct (process_chunk tables hdr chunk2).
  - destruct (process_row tables hdr row) as [o|e]; simpl; [|done].
    rewrite IH. destruct (process_chunk tables hdr chunk1); simpl; [|done].
    destruct (process_chunk tables hdr chunk2); simpl; [|done].
    by destruct o.
Qed.

Local Abbreviation whole := (read_and_process tables).

Lemma whole_app_Ok hdr lines1 lines2 df1 df2 :
  whole hdr lines1 = Ok df1 -> whole hdr lines2 = Ok df2 ->
  whole hdr (lines1 ++ lines2) = Ok (df1 ++ df2).
Proof.
  unfold read_and_process. rewrite read_chunk_app. intros H1 H2.
  apply rbind_Ok in H1 as (c1 & -> & H1).
  apply rbind_Ok in H2 as (c2 & -> & H2). simpl.
  by rewrite process_chunk_app, H1, H2.
Qed.

Lemma whole_app_Raise_l hdr lines1 lines2 e :
  whole hdr lines1 = Raise e -> exists e', whole hdr (lines1 ++ lines2) = Raise e'.
Proof.
  unfold read_and_process. rewrite read_chunk_app. intros H1.
  destruct (read_chunk lines1) as [c1|]; simpl in *; [|eauto].
  destruct (read_chunk lines2) as [c2|]; simpl; [|eauto].
  rewrite process_chunk_app, H1. simpl. eauto.
Qed.

Lemma whole_app_Raise_r hdr lines1 lines2 e :
  whole hdr lines2 = Raise e -> exists e', whole hdr (lines1 ++ lines2) = Raise e'.
Proof.
  unfold read_and_process. rewrite read_chunk_app. intros H2.
  destruct (read_chunk lines1) as [c1|]; simpl in *; [|eauto].
  destruct (read_chunk lines2) as [c2|]; simpl in *; [|eauto].
  rewrite process_chunk_app, H2.
  destruct (process_chunk tables hdr c1); simpl; eauto.
Qed.

(** The chunks put together again are the lines. *)
Lemma concat_split_chunks_fuel {A : Type} (fuel n : nat) (l : list A) :
  (0 < n)%nat -> (length l <= fuel)%nat ->
  concat (split_chunks_fuel fuel n l) = l.
Proof.
  intros Hn. revert l. induction fuel as [|fuel IH]; intros l Hl.
  - destruct l; [done | simpl in Hl; lia].
  - destruct l as [|x l]; [done|].
    change (take n (x :: l) ++ concat (split_chunks_fuel fuel n (drop n (x :: l)))
            = x :: l).
    rewrite IH; [apply take_drop|].
    rewrite length_drop. simpl in *. lia.
Qed.

Lemma concat_split_chunks {A : Type} (n : nat) (l : list A) :
  (0 < n)%nat -> concat (split_chunks n l) = l.
Proof. intros Hn. by apply concat_split_chunks_fuel. Qed.

(** What the loop over the chunks computes, against the whole. *)
Lemma chunk_loop_spec hdr (stream : list (list Line))
    (chunks : list (list (gmap string (PyVal F)))) :
  match chunk_loop tables hdr stream chunks with
  | Ok chunks' =>
      exists df, whole hdr (concat stream) = Ok df
                 /\ concat chunks' = concat chunks ++ df
  | Raise _ => exists e, whole hdr (concat stream) = Raise e
  end.
Proof.
  revert chunks. induction stream as [|lines stream IH]; intros chunks.
  - simpl. exists []. split; [done | by rewrite app_nil_r].
  - change (concat (lines :: stream)) with (lines ++ concat stream).
    simpl.
    destruct (read_chunk lines) as [c1|e1] eqn:Hr; simpl.
    + destruct (process_chunk tables hdr c1) as [p1|e1] eqn:Hp; simpl.
      * assert (H1 : whole hdr lines = Ok p1) by (unfold read_and_process; by rewrite Hr).
        match goal with
        | |- context [chunk_loop tables hdr stream ?acc] =>
            specialize (IH acc);
            assert (Hacc : concat acc = concat chunks ++ p1)
        end.
        { destruct p1; [by rewrite app_nil_r|].
          by rewrite concat_app, (concat_cons _ []), app_nil_r. }
        destruct (chunk_loop tables hdr stream _) as [chunks'|e'].
        -- destruct IH as (df & Hdf & Hc). exists (p1 ++ df). split.
           ++ by apply whole_app_Ok.
           ++ by rewrite Hc, Hacc, app_assoc.
        -- destruct IH as (e & He). by eapply whole_app_Raise_r.
      * apply (whole_app_Raise_l _ _ _ e1). unfold read_and_process. by rewrite Hr.
    + apply (whole_app_Raise_l _ _ _ e1). unfold read_and_process. by rewrite Hr.
Qed.

End ChunkingProperties.

Section FileProperties.
Context {F : Type} `{PyFloat F}.
Variable tables : gmap string (PyVal F).
Implicit Types (f : CsvFile) (lines : list Line).

(** The result of a bind, apart from the log. *)
Lemma snd_bind {A B : Type} (m : M A) (k : A -> M B) :
  (m ≫= k).2 = match m.2 with Ok a => (k a).2 | Raise e => Raise e end.
Proof.
  destruct m as [l [a|e]]; simpl; [|done].
  unfold mbind, M_bind. by destruct (k a).
Qed.

(** With a chunk size of at least one, a file gives what it gives when read
    in one piece. *)
Lemma process_onspd_csv_result f (chunk_size : nat) :
  (0 < chunk_size)%nat ->
  (process_onspd_csv tables f chunk_size).2 = file_result tables f.
Proof.
  intros Hn. unfold process_onspd_csv, file_result.
  destruct (file_exists f); [|done]. cbn [negb].
  rewrite snd_bind.
  destruct (header f) as [columns|e]; simpl; [|done].
  unfold open_chunks. destruct chunk_size as [|n]; [lia|].
  destruct (body f) as [lines|e]; simpl; [|done].
  pose proof (chunk_loop_spec tables (column_mapping_of columns)
                (split_chunks (S n) lines) []) as Hspec.
  rewrite concat_split_chunks in Hspec by lia.
  unfold read_and_process in Hspec.
  destruct (chunk_loop _ _ _ _) as [chunks|e].
  - destruct Hspec as (df & -> & Hc). simpl in Hc. subst df.
    by destruct chunks.
  - destruct Hspec as (e' & ->). done.
Qed.

(** With a chunk size of zero the reader is refused, which the [try]
    catches. *)
Lemma process_onspd_csv_zero f :
  (process_onspd_csv tables f 0).2 =
  if negb (file_exists f) then Raise FileNotFoundError
  else _ ← header f; Ok [].
Proof.
  unfold process_onspd_csv.
  destruct (file_exists f); [|done]. cbn [negb].
  rewrite snd_bind. by destruct (header f).
Qed.

End FileProperties.

Section FrameProperties.
Context {F : Type} `{PyFloat F} `{NumPyFloat F}.
Variable tables : gmap string (PyVal F).
Implicit Types (f : CsvFile) (hdr : HeaderMap) (rows : list Row).

Lemma split_chunks_whole {A : Type} (l : list A) :
  l <> [] -> split_chunks (length l) l = [l].
Proof.
  destruct l as [|x l]; [done|]. intros _.
  unfold split_chunks. cbn [length split_chunks_fuel].
  rewrite take_ge, drop_ge by (simpl; lia).
  by destruct (length l).
Qed.

Lemma split_chunks_fuel_ones {A : Type} (fuel : nat) (l : list A) :
  (length l <= fuel)%nat ->
  split_chunks_fuel fuel 1 l = (fun x => [x]) <$> l.
Proof.
  revert l. induction fuel as [|fuel IH]; intros [|x l] Hl; try done.
  - simpl in Hl. lia.
  - cbn [split_chunks_fuel]. rewrite fmap_cons. f_equal.
    apply IH. simpl in Hl. lia.
Qed.

Lemma split_chunks_ones {A : Type} (l : list A) :
  split_chunks 1 l = (fun x => [x]) <$> l.
Proof. by apply split_chunks_fuel_ones. Qed.

Lemma read_chunk_rows rows : read_chunk (DataRow <$> rows) = Ok rows.
Proof.
  induction rows as [|r rows IH]; [done|].
  rewrite fmap_cons. cbn [read_chunk]. by rewrite IH.
Qed.

Lemma concat_singletons {A : Type} (l : list A) :
  concat ((fun x => [x]) <$> l) = l.
Proof.
  induction l as [|x l IH]; [done|].
  rewrite fmap_cons. cbn [concat app]. by rewrite IH.
Qed.

(** Read row by row, the loop appends one chunk for each row that gives a
    record. *)
Lemma chunk_loop_ones hdr rows (chunks : list (list (gmap string (PyVal F)))) :
  chunk_loop tables hdr ((fun x => [x]) <$> (DataRow <$> rows)) chunks =
  processed_rows ← process_chunk tables hdr rows;
  Ok (chunks ++ ((fun r => [r]) <$> processed_rows)).
Proof.
  revert chunks. induction rows as [|row rows IH]; intros chunks.
  - simpl. by rewrite app_nil_r.
  - rewrite !fmap_cons. cbn [chunk_loop read_chunk process_chunk].
    simpl. destruct (process_row tables hdr row) as [[rec|]|e]; simpl.
    + rewrite IH.
      destruct (process_chunk tables hdr rows); simpl; [|done].
      by rewrite <- app_assoc.
    + rewrite IH. by destruct (process_chunk tables hdr rows).
    + done.
Qed.

Lemma loop_in_ones f hdr rows :
  body f = Ok (DataRow <$> rows) ->
  (stream ← open_chunks f 1; chunk_loop tables hdr stream []) =
  (processed_rows ← process_chunk tables hdr rows;
   Ok ((fun r => [r]) <$> processed_rows)
   : Result (list (list (gmap string (PyVal F))))).
Proof.
  intros Hb. unfold open_chunks. rewrite Hb. simpl.
  by rewrite split_chunks_ones, chunk_loop_ones.
Qed.

Lemma loop_in_one_chunk f hdr rows :
  body f = Ok (DataRow <$> rows) -> rows <> [] ->
  (stream ← open_chunks f (length rows); chunk_loop tables hdr stream []) =
  (processed_rows ← process_chunk tables hdr rows;
   Ok (match processed_rows with [] => [] | _ => [processed_rows] end)
   : Result (list (list (gmap string (PyVal F))))).
Proof.
  intros Hb Hne. unfold open_chunks.
  destruct (length rows) as [|n] eqn:Hn.
  { by destruct rows. }
  rewrite Hb. cbn [mbind Result_bind].
  rewrite <- Hn, <- (length_fmap DataRow).
  rewrite split_chunks_whole by (by destruct rows).
  cbn [chunk_loop]. rewrite read_chunk_rows. simpl.
  by destruct (process_chunk tables hdr rows) as [[|]|].
Qed.


End FrameProperties.

Section RunProperties.
Context {F : Type} `{PyFloat F}.
Variable tables : gmap string (PyVal F).
Implicit Types (f : CsvFile) (files : list CsvFile) (stats : ProcessingStats).
Implicit Types (df : list (gmap string (PyVal F))).
Implicit Types (all_chunks : list (list (gmap string (PyVal F)))).

Local Abbreviation same_outcome := (same_outcome tables).

(** Apart from its log, the loop over the files depends on the files only
    through what [process_onspd_csv] returns for each. *)
Lemma files_loop_congr (chunk_size : nat) files files' :
  Forall2 (same_outcome chunk_size) files files' ->
  forall (i i' n n' : nat) all_chunks stats,
    (files_loop tables files i n chunk_size all_chunks stats).2 =
    (files_loop tables files' i' n' chunk_size all_chunks stats).2.
Proof.
  induction 1 as [|f f' files files' Hf _ IH]; intros i i' n n' acc stats.
  - done.
  - cbn [files_loop]. rewrite !snd_bind. cbn [log snd]. rewrite Hf.
    destruct ((process_onspd_csv tables f' chunk_size).2) as [[|r df]|e];
      [apply IH | | done].
    rewrite !snd_bind. cbn [lift snd].
    destruct (count_active (r :: df)); [|done].
    rewrite !snd_bind. cbn [lift snd].
    destruct (count_with_coordinates (r :: df)); [|done].
    apply IH.
Qed.

Lemma process_directory_congr (chunk_size : nat) files files' :
  Forall2 (same_outcome chunk_size) files files' ->
  (process_onspd_csv_directory tables (Some files) chunk_size).2 =
  (process_onspd_csv_directory tables (Some files') chunk_size).2.
Proof.
  intros Hall. unfold process_onspd_csv_directory.
  destruct Hall as [|f f' files files' Hf Hall]; [done|].
  rewrite !snd_bind. cbn [log snd].
  assert (Hall' : Forall2 (same_outcome chunk_size) (f :: files) (f' :: files'))
    by (by constructor).
  rewrite (files_loop_congr chunk_size (f :: files) (f' :: files') Hall' 1 1
             (length (f :: files)) (length (f' :: files')) [] (mkStats 0 0 0 0)).
  destruct ((files_loop tables (f' :: files') _ _ _ _ _).2)
    as [[all_chunks stats]|e]; done.
Qed.

(** A row the terminated test catches gives no record. *)
Lemma terminated_row_skipped (hdr : HeaderMap) (row : Row) :
  is_terminated hdr row = true -> process_row tables hdr row = Ok None.
Proof. unfold process_row. by intros ->. Qed.

Lemma is_terminated_spec (hdr : HeaderMap) (row : Row) (c : Cell) :
  cell_at row (get_idx hdr "doterm") = Some c ->
  strip (py_str c) <> "" -> strip (py_str c) <> "nan" ->
  is_terminated hdr row = true.
Proof.
  intros Hc Hne Hnan. unfold is_terminated. rewrite Hc.
  destruct (strip (py_str c)) as [|a s] eqn:Hs; [done|].
  apply String.eqb_neq in Hnan. rewrite Hnan.
  cbn [str_truthy negb andb String.length].
  apply Z.ltb_lt. lia.
Qed.

(** Lines read in one piece: a row that gives no record can be left out. *)
Lemma file_result_skip f (columns : list string) (pre post : list Line)
    (row : Row) :
  header f = Ok columns ->
  process_row tables (column_mapping_of columns) row = Ok None ->
  file_result tables (with_body f (pre ++ DataRow row :: post)) =
  file_result tables (with_body f (pre ++ post)).
Proof.
  intros Hh Hrow. unfold file_result, with_body; simpl.
  destruct (file_exists f); simpl; [|done].
  rewrite Hh; simpl.
  rewrite !read_chunk_app. simpl.
  destruct (read_chunk pre) as [rows1|e]; simpl; [|done].
  destruct (read_chunk post) as [rows2|e]; simpl; [|done].
  rewrite !process_chunk_app. simpl. rewrite Hrow. simpl.
  destruct (process_chunk tables _ rows1); simpl; [|done].
  by destruct (process_chunk tables _ rows2).
Qed.

Lemma same_outcome_skip (chunk_size : nat) f (columns : list string)
    (pre post : list Line) (row : Row) :
  header f = Ok columns ->
  process_row tables (column_mapping_of columns) row = Ok None ->
  same_outcome chunk_size (with_body f (pre ++ DataRow row :: post))
               (with_body f (pre ++ post)).
Proof.
  intros Hh Hrow. unfold same_outcome.
  destruct chunk_size as [|n].
  - by rewrite !process_onspd_csv_zero.
  - rewrite !process_onspd_csv_result by lia.
    by apply (file_result_skip f columns).
Qed.

Lemma same_outcome_refl (chunk_size : nat) files :
  Forall2 (same_outcome chunk_size) files files.
Proof. induction files; constructor; done. Qed.

(** C2, as the code has it.  A row whose [doterm] cell, found through the
    header map, is after trimming neither empty nor the text "nan" gives no
    record.  A chunk that holds it gives the same [processed_rows], hence
    the same frame, as the chunk without it.  And for a file whose lines all
    parse, the run over a directory counts the same [total_rows_processed],
    [active_postcodes] and [with_coordinates] as the run over the directory
    in which that row is deleted from the file. *)
Theorem terminated_row_excluded (chunk_size : nat) (files1 files2 : list CsvFile)
    f (columns : list string) (pre post : list Row) (row : Row) (c : Cell) :
  header f = Ok columns ->
  cell_at row (get_idx (column_mapping_of columns) "doterm") = Some c ->
  strip (py_str c) <> "" ->
  strip (py_str c) <> "nan" ->
  process_row tables (column_mapping_of columns) row = Ok None /\
  process_chunk tables (column_mapping_of columns) (pre ++ row :: post) =
  process_chunk tables (column_mapping_of columns) (pre ++ post) /\
  run_counts (process_onspd_csv_directory tables
                (Some (files1
                       ++ with_body f (DataRow <$> pre ++ row :: post)
                       :: files2))
                chunk_size).2 =
  run_counts (process_onspd_csv_directory tables
                (Some (files1 ++ with_body f (DataRow <$> pre ++ post)
                       :: files2))
                chunk_size).2.
Proof.
  intros Hh Hc Hne Hnan.
  assert (Hrow : process_row tables (column_mapping_of columns) row = Ok None).
  { apply terminated_row_skipped. by apply (is_terminated_spec _ _ c). }
  split; [done|]. split.
  - rewrite !process_chunk_app. cbn [process_chunk]. rewrite Hrow.
    destruct (process_chunk tables _ pre); simpl; [|done].
    by destruct (process_chunk tables _ post).
  - f_equal.
    apply process_directory_congr, Forall2_app; [apply same_outcome_refl|].
    constructor; [|apply same_outcome_refl].
    rewrite !fmap_app, fmap_cons.
    by apply (same_outcome_skip _ _ columns).
Qed.

End RunProperties.

Section StatsProperties.
Context {F : Type} `{PyFloat F}.
Variable tables : gmap string (PyVal F).
Implicit Types (files : list CsvFile) (stats : ProcessingStats).
Implicit Types (df : list (gmap string (PyVal F))).
Implicit Types (all_chunks : list (list (gmap string (PyVal F)))).

Lemma count_true_bounds (l : list bool) :
  0 <= count_true l <= Z.of_nat (length l).
Proof.
  unfold count_true. pose proof (length_filter (fun b => b = true) l). lia.
Qed.

Lemma frame_column_length df (k : string) (col : list (PyVal F)) :
  frame_column df k = Ok col -> length col = length df.
Proof.
  unfold frame_column. destruct (existsb _ df); [|discriminate].
  intros [= <-]. apply length_fmap.
Qed.

Lemma count_active_bounds df (a : Z) :
  count_active df = Ok a -> 0 <= a <= Z.of_nat (length df).
Proof.
  unfold count_active. intros Hx.
  apply rbind_Ok in Hx as (col & Hcol & [= <-]).
  pose proof (count_true_bounds (py_isna <$> col)) as Hb.
  rewrite length_fmap, (frame_column_length _ _ _ Hcol) in Hb. lia.
Qed.

Lemma count_with_coordinates_bounds df (a : Z) :
  count_with_coordinates df = Ok a -> 0 <= a <= Z.of_nat (length df).
Proof.
  unfold count_with_coordinates. intros Hx.
  apply rbind_Ok in Hx as (lat & Hlat & Hx).
  apply rbind_Ok in Hx as (long & Hlong & [= <-]).
  match goal with |- context [count_true ?l] =>
    pose proof (count_true_bounds l) as Hb end.
  rewrite length_zip_with in Hb.
  rewrite (frame_column_length _ _ _ Hlat) in Hb. lia.
Qed.

Lemma files_loop_inv files (chunk_size : nat) :
  forall (i n : nat) all_chunks stats all_chunks' stats',
    (files_loop tables files i n chunk_size all_chunks stats).2
      = Ok (all_chunks', stats') ->
    stats_inv all_chunks stats -> stats_inv all_chunks' stats'.
Proof.
  induction files as [|f files IH]; intros i n acc stats acc' stats' Hx Hinv.
  - by injection Hx as <- <-.
  - cbn [files_loop] in Hx. rewrite !snd_bind in Hx. cbn [log snd] in Hx.
    destruct ((process_onspd_csv tables f chunk_size).2) as [[|r df]|e];
      [by eapply IH | | done].
    rewrite !snd_bind in Hx. cbn [lift snd] in Hx.
    destruct (count_active (r :: df)) as [a|] eqn:Ha; [|done].
    rewrite !snd_bind in Hx. cbn [lift snd] in Hx.
    destruct (count_with_coordinates (r :: df)) as [w|] eqn:Hw; [|done].
    apply (IH _ _ _ _ _ _ Hx).
    apply count_active_bounds in Ha.
    apply count_with_coordinates_bounds in Hw.
    destruct Hinv as (Hact & Hco & Hterm & _).
    unfold stats_inv; cbn [total_rows_processed active_postcodes
                           with_coordinates terminated_postcodes].
    repeat split; try lia.
    intros Hnil. by apply app_nil in Hnil as [_ ?].
Qed.

(** C10. When the run over a directory returns, its statistics satisfy
    [active_postcodes <= total_rows_processed],
    [with_coordinates <= total_rows_processed] and
    [terminated_postcodes = total_rows_processed - active_postcodes >= 0]. *)
Theorem run_statistics_consistent (directory : option (list CsvFile))
    (chunk_size : nat) df stats :
  (process_onspd_csv_directory tables directory chunk_size).2 = Ok (df, stats) ->
  active_postcodes stats <= total_rows_processed stats
  /\ with_coordinates stats <= total_rows_processed stats
  /\ terminated_postcodes stats
     = total_rows_processed stats - active_postcodes stats
  /\ 0 <= terminated_postcodes stats.
Proof.
  unfold process_onspd_csv_directory. intros Hx.
  destruct directory as [[|f files]|]; [done | | done].
  rewrite !snd_bind in Hx. cbn [log snd] in Hx.
  destruct ((files_loop tables (f :: files) _ _ _ _ _).2)
    as [[all_chunks st]|e] eqn:Hloop; [|done].
  apply files_loop_inv in Hloop as (Hact & Hco & Hterm & Hnil);
    [|unfold stats_inv; simpl; repeat split; lia].
  destruct all_chunks as [|c all_chunks].
  - rewrite snd_bind in Hx. cbn [log snd mret M_ret] in Hx.
    injection Hx as <- <-. specialize (Hnil eq_refl). lia.
  - rewrite !snd_bind in Hx. cbn [log snd mret M_ret] in Hx.
    injection Hx as <- <-. simpl. lia.
Qed.

(** C3, as the code has it.  A directory that exists and holds no CSV file
    makes the run raise [ValueError]; nothing is logged and no frame is
    returned. *)
Theorem empty_directory_raises (chunk_size : nat) :
  process_onspd_csv_directory tables (Some []) chunk_size
  = ([], Raise ValueError).
Proof. reflexivity. Qed.

End StatsProperties.

Section ErrorProperties.
Context {F : Type} `{PyFloat F}.
Variable tables : gmap string (PyVal F).

(** An error of the chunked read, or of the processing of a chunk, is caught
    in [process_onspd_csv]: it is logged and the file gives the empty
    frame. *)
Lemma chunk_error_caught (f : CsvFile) (columns : list string)
    (lines : list Line) (chunk_size : nat) (e : exn) :
  file_exists f = true -> header f = Ok columns -> body f = Ok lines ->
  chunk_loop tables (column_mapping_of columns)
             (split_chunks (S chunk_size) lines) [] = Raise e ->
  process_onspd_csv tables f (S chunk_size)
  = ([(ERROR, ErrorProcessing (file_name f) e)], Ok []).
Proof.
  intros Hex Hh Hb Hloop. unfold process_onspd_csv, open_chunks.
  rewrite Hex, Hh, Hb. simpl. by rewrite Hloop.
Qed.

(** An error of the header read is not: it leaves [process_onspd_csv] as it
    came, with nothing logged. *)
Lemma header_error_propagates (f : CsvFile) (chunk_size : nat) (e : exn) :
  file_exists f = true -> header f = Raise e ->
  process_onspd_csv tables f chunk_size = ([], Raise e).
Proof.
  intros Hex Hh. unfold process_onspd_csv. by rewrite Hex, Hh.
Qed.

Lemma contains_space_rev_app (s1 s2 : string) :
  contains_space (String.rev_app s1 s2) = contains_space s1 || contains_space s2.
Proof.
  revert s2. induction s1 as [|c s1 IH]; intros s2; simpl; [done|].
  rewrite IH. simpl. by destruct (is_space_char c), (contains_space s1).
Qed.

Lemma contains_space_lstrip (s : string) :
  contains_space s = false -> contains_space (lstrip s) = false.
Proof.
  induction s as [|c s IH]; simpl; [done|].
  intros Hs. apply orb_false_iff in Hs as [Hc Hs].
  destruct (isspace c); [by apply IH | simpl; by rewrite Hc, Hs].
Qed.

(** Trimming a text that has no space in it leaves no space in it. *)
Lemma strip_keeps_no_space (s : string) :
  contains_space s = false -> contains_space (strip s) = false.
Proof.
  intros Hs. unfold strip, rstrip, String.rev.
  rewrite contains_space_rev_app, orb_false_r.
  apply contains_space_lstrip.
  rewrite contains_space_rev_app, orb_false_r.
  by apply contains_space_lstrip.
Qed.

End ErrorProperties.

(** * The statements on the sample data *)

Import Sample.

(** C4, where the code departs from it.  In a directory of two files whose
    first has a header that cannot be read, the error of the header read is
    not caught: the run raises it, logs no error record and never reaches
    the second file. *)
Theorem header_error_aborts_run :
  process_onspd_csv_directory lookup_tables
    (Some [bad_header_file; good_file]) 1
  = ([(INFO, FoundCsvFiles 2); (INFO, ProcessingFile 1 2 "empty.csv")],
     Raise EmptyDataError).
Proof. vm_compute. reflexivity. Qed.

(** The sibling path: a malformed line in the first file is caught and
    logged, and the second file is processed. *)
Example line_error_run_continues :
  exists log,
    process_onspd_csv_directory lookup_tables
      (Some [bad_line_file; good_file]) 1
    = (log, Ok ([record_active], mkStats 1 1 0 1))
    /\ (ERROR, ErrorProcessing "broken.csv" ParserError) ∈ log.
Proof.
  eexists. split; [vm_compute; reflexivity|].
  apply list_elem_of_In. simpl. tauto.
Qed.

(** C2 fails as it is stated, in two ways.  A row whose [doterm] cell holds
    the text "nan", not empty after trimming, gives a record, and an active
    one; and in a run over a file with one active row and one row terminated
    on 2020-01-01 the terminated row is counted nowhere:
    [terminated_postcodes] is 0. *)
Lemma terminated_row_counterexample :
  (cell_at row_doterm_nan (get_idx hdr "doterm") = Some (CStr "nan")
   /\ strip (py_str (CStr "nan")) <> ""
   /\ process_chunk lookup_tables hdr [row_doterm_nan] = Ok [record_doterm_nan]
   /\ active_df [record_doterm_nan] = [record_doterm_nan])
  /\
  (cell_at row_terminated (get_idx hdr "doterm") = Some (CStr "2020-01-01")
   /\ strip (py_str (CStr "2020-01-01")) <> ""
   /\ (process_onspd_csv_directory lookup_tables (Some [good_file]) 1).2
      = Ok ([record_active], mkStats 1 1 0 1)).
Proof.
  repeat split; try (vm_compute; reflexivity); vm_compute; discriminate.
Qed.


(** C3 fails as it is stated: on a directory without CSV files the run does
    not return an empty frame with a warning. *)
Lemma empty_directory_counterexample :
  ~ exists log stats,
      process_onspd_csv_directory lookup_tables (Some []) 1
      = (log, Ok ([], stats)).
Proof. intros (log & stats & Hx). vm_compute in Hx. discriminate Hx. Qed.

(** C1 on the sample: the northings cell is "0" and the latitude cell holds
    a float that parses. *)
Lemma dependency_null_forces_null_witness :
  cell_at row_northings_zero (get_idx hdr "osnrth1m") = Some (CStr "0")
  /\ extract_field (F := DecFloat) hdr row_northings_zero latitude_def
     = Ok PNone
  /\ extract_field (F := DecFloat) hdr row_northings_zero
       (without_depends_on latitude_def)
     = Ok (PFloat (DFin 51501009 6)).
Proof.
  split; [vm_compute; reflexivity|]. split; [|vm_compute; reflexivity].
  apply (dependency_null_forces_null lookup_tables hdr row_northings_zero
           latitude_def "osnrth1m" (CStr "0")).
  - reflexivity.
  - vm_compute; reflexivity.
  - right; right. vm_compute; reflexivity.
Defined.

(** C9 on the sample: the file has no northings column, and the latitude of
    the row is the float its own cell holds. *)
Lemma absent_dependency_no_nulling_witness :
  hdr_no_northings !! "osnrth1m" = None
  /\ cell_at row_no_northings (get_idx hdr_no_northings "lat")
     = Some (CStr "51.501009")
  /\ extract_field (F := DecFloat) hdr_no_northings row_no_northings latitude_def
     = Ok (PFloat (DFin 51501009 6))
  /\ record_no_northings !! "latitude" = Some (PFloat (DFin 51501009 6)).
Proof.
  split; [vm_compute; reflexivity|]. split; [vm_compute; reflexivity|].
  destruct (absent_dependency_no_nulling lookup_tables hdr_no_northings
              row_no_northings latitude_def "osnrth1m") as [_ Hv].
  - reflexivity.
  - vm_compute; reflexivity.
  - destruct (Hv (CStr "51.501009") "51.501009" (DFin 51501009 6))
      as [Hfield Hrecord]; try (vm_compute; reflexivity).
    split; [exact Hfield|].
    apply Hrecord.
    + unfold ONSPD_FIELD_MAPPINGS, latitude_def.
      repeat (first [apply list_elem_of_here | apply list_elem_of_further]).
    + vm_compute; reflexivity.
Defined.

(** C8 on the sample: the postcode is written without its space. *)
Lemma no_space_postcode_fields_witness :
  process_row lookup_tables hdr row_no_space = Ok (Some record_no_space)
  /\ record_no_space !! "incode" = Some (PStr "")
  /\ record_no_space !! "outcode" = Some (PStr "")
  /\ record_no_space !! "postcode" = Some (PStr "SW1A1AA")
  /\ record_no_space !! "pc_compact" = Some (PStr (remove_spaces "SW1A1AA")).
Proof.
  split; [vm_compute; reflexivity|].
  apply (no_space_postcode_fields lookup_tables hdr row_no_space
           (CStr "SW1A1AA") "SW1A1AA" record_no_space);
    vm_compute; reflexivity.
Defined.

(** C7 on the sample. *)
Lemma chunk_records_have_postcode_witness :
  process_chunk lookup_tables hdr [row_active; row_terminated]
  = Ok [record_active]
  /\ exists s, record_active !! "postcode" = Some (PStr s) /\ s <> "".
Proof.
  split; [vm_compute; reflexivity|].
  apply (chunk_records_have_postcode lookup_tables hdr
           [row_active; row_terminated] [record_active] record_active).
  - vm_compute; reflexivity.
  - apply list_elem_of_here.
Defined.

(** C6 on the sample. *)
Lemma enricher_is_additive_witness :
  add_human_readable_names lookup_tables coded_record = Ok enriched_record
  /\ enriched_record !! "country_code" = coded_record !! "country_code"
  /\ remove_labels enriched_record = remove_labels coded_record.
Proof.
  assert (Hx : add_human_readable_names lookup_tables coded_record
               = Ok enriched_record) by (vm_compute; reflexivity).
  split; [exact Hx|].
  destruct (enricher_is_additive lookup_tables coded_record enriched_record Hx)
    as (_ & Hcode & Hrem & _).
  split; [|exact Hrem].
  apply Hcode. apply (bool_decide_unpack _). vm_compute; reflexivity.
Defined.

(** C2 on the sample: the terminated row of the sample file. *)
Lemma terminated_row_excluded_witness :
  header good_file = Ok columns
  /\ cell_at row_terminated (get_idx (column_mapping_of columns) "doterm")
     = Some (CStr "2020-01-01")
  /\ process_row lookup_tables (column_mapping_of columns) row_terminated
     = Ok None
  /\ process_chunk lookup_tables (column_mapping_of columns)
       ([row_active] ++ row_terminated :: [])
     = process_chunk lookup_tables (column_mapping_of columns)
         ([row_active] ++ [])
  /\ run_counts (process_onspd_csv_directory lookup_tables
                   (Some ([] ++ with_body good_file
                                  (DataRow <$> [row_active]
                                               ++ row_terminated :: [])
                          :: []))
                   1).2
     = run_counts (process_onspd_csv_directory lookup_tables
                     (Some ([] ++ with_body good_file
                                    (DataRow <$> [row_active] ++ [])
                            :: []))
                     1).2.
Proof.
  split; [reflexivity|]. split; [vm_compute; reflexivity|].
  apply (terminated_row_excluded lookup_tables 1 [] [] good_file columns
           [row_active] [] row_terminated (CStr "2020-01-01")).
  - reflexivity.
  - vm_compute; reflexivity.
  - vm_compute; discriminate.
  - vm_compute; discriminate.
Defined.


(** C10 on the sample. *)
Lemma run_statistics_consistent_witness :
  (process_onspd_csv_directory lookup_tables (Some [good_file]) 1).2
  = Ok ([record_active], mkStats 1 1 0 1)
  /\ active_postcodes (mkStats 1 1 0 1) <= total_rows_processed (mkStats 1 1 0 1)
  /\ with_coordinates (mkStats 1 1 0 1) <= total_rows_processed (mkStats 1 1 0 1)
  /\ terminated_postcodes (mkStats 1 1 0 1)
     = total_rows_processed (mkStats 1 1 0 1) - active_postcodes (mkStats 1 1 0 1)
  /\ 0 <= terminated_postcodes (mkStats 1 1 0 1).
Proof.
  split; [vm_compute; reflexivity|].
  apply (run_statistics_consistent lookup_tables (Some [good_file]) 1
           [record_active] (mkStats 1 1 0 1)).
  vm_compute; reflexivity.
Defined.
